(** * caligo: the System module and the [silent] context manager

    A shallow embedding of [caligo/modules/system.py] (the eval sandbox,
    the restart / self-update coordinator, the process supervisor hook)
    and of [caligo/util/silent.py].

    Handlers are written in a state-and-exception monad over an explicit
    world: the "system" collection of the document store, the process
    flags, and a chronological trace of the calls made to the external
    collaborators (chat transport, store, git, process control).  The
    collaborators themselves are not part of the repository sources; they
    are taken as an environment of oracles. *)

From Stdlib Require Import ZArith String Ascii List Lia DecimalString.
From stdpp Require Import base option list gmap strings.

Local Open Scope Z_scope.

(** ** Python strings *)

Definition nl : string := String (ascii_of_nat 10) EmptyString.

(** [s.endswith(suffix)] *)
Definition endswith (s suffix : string) : bool :=
  let n := String.length s in
  let k := String.length suffix in
  if (k <=? n)%nat then String.eqb (substring (n - k) k s) suffix else false.

(** [s[:-1]] *)
Fixpoint drop_last (s : string) : string :=
  match s with
  | EmptyString => EmptyString
  | String c EmptyString => EmptyString
  | String c rest => String c (drop_last rest)
  end.

(** [s.split(" ", 1)[1]]: the text after the first space; [None] stands
    for the [IndexError] raised when the text has no space. *)
Fixpoint split_space_1_snd (s : string) : option string :=
  match s with
  | EmptyString => None
  | String c rest =>
      if Ascii.eqb c " "%char then Some rest else split_space_1_snd rest
  end.

(** [str(n)] for an [int]. *)
Definition str_of_int (n : Z) : string := NilZero.string_of_int (Z.to_int n).

(** ** Python values *)

Set Warnings "-register-all".

(** Documents of the store (BSON): field order is part of a document,
    and [$addToSet] compares sub-documents field by field in order, so
    a document is an association list.  The values are the kinds the
    module writes and tests for (null, integers, strings, arrays,
    sub-documents) and booleans; floating-point numbers are not part of
    the model. *)
Inductive value : Type :=
| VNone
| VBool (b : bool)
| VInt (n : Z)
| VStr (s : string)
| VList (l : list value)
| VDict (d : list (string * value)).

Definition document : Type := list (string * value).

Fixpoint value_eqb (a b : value) {struct a} : bool :=
  match a, b with
  | VNone, VNone => true
  | VBool b, VBool b' => Bool.eqb b b'
  | VInt n, VInt m => Z.eqb n m
  | VStr s, VStr t => String.eqb s t
  | VList l, VList l' =>
      (fix go (xs ys : list value) {struct xs} : bool :=
         match xs, ys with
         | [], [] => true
         | x :: xs', y :: ys' => value_eqb x y && go xs' ys'
         | _, _ => false
         end) l l'
  | VDict d, VDict d' =>
      (fix go (xs ys : document) {struct xs} : bool :=
         match xs, ys with
         | [], [] => true
         | (k, x) :: xs', (k', y) :: ys' =>
             String.eqb k k' && value_eqb x y && go xs' ys'
         | _, _ => false
         end) d d'
  | _, _ => false
  end.

Fixpoint dict_lookup (key : string) (d : document) : option value :=
  match d with
  | [] => None
  | (k, v) :: rest => if String.eqb k key then Some v else dict_lookup key rest
  end.

(** [d.get(key)] on a dict: the value, or [None]. *)
Definition dict_get (key : string) (d : document) : value :=
  match dict_lookup key d with
  | Some v => v
  | None => VNone
  end.

(** [d[key] = v], keeping the position of an existing key. *)
Fixpoint dict_set (key : string) (v : value) (d : document) : document :=
  match d with
  | [] => [(key, v)]
  | (k, x) :: rest =>
      if String.eqb k key then (k, v) :: rest else (k, x) :: dict_set key v rest
  end.

Definition is_None (v : value) : bool :=
  match v with VNone => true | _ => false end.

(** The result of an evaluated snippet: any object, seen through
    [is None] and [str()]. *)
Inductive pyval : Type :=
| PyNone
| PyInt (n : Z)
| PyStr (s : string)
| PyObj (shown : string).

Definition py_str (v : pyval) : string :=
  match v with
  | PyNone => "None"
  | PyInt n => str_of_int n
  | PyStr s => s
  | PyObj shown => shown
  end.

Definition is_not_None (v : pyval) : bool :=
  match v with PyNone => false | _ => true end.

(** ** Exceptions and tracebacks *)

(** One entry of [traceback.extract_tb]. *)
Record Frame : Type := mkFrame {
  filename : string;
  lineno : Z;
  name : string;
}.

Record Exn : Type := mkExn {
  exc_type : string;
  exc_msg : string;
  (** subclass of [Exception] (as opposed to a bare [BaseException]) *)
  is_Exception : bool;
  (** [traceback.extract_tb(e.__traceback__)] at the point of capture *)
  exc_tb : list Frame;
}.

Definition TypeError (msg : string) : Exn := mkExn "TypeError" msg true [].
Definition IndexError (msg : string) : Exn := mkExn "IndexError" msg true [].
Definition KeyError (msg : string) : Exn := mkExn "KeyError" msg true [].
Definition AttributeError (msg : string) : Exn :=
  mkExn "AttributeError" msg true [].
Definition WriteError (msg : string) : Exn := mkExn "WriteError" msg true [].
Definition SystemExit : Exn := mkExn "SystemExit" "" false [].

(** ** The monad of handlers *)

(** A handler returns, raises, or never comes back because the process
    image was replaced ([os.execv]). *)
Inductive Res (A : Type) : Type :=
| Ok (a : A)
| Raise (e : Exn)
| Replaced (path : string) (argv : list string).
Arguments Ok {A} a.
Arguments Raise {A} e.
Arguments Replaced {A} path argv.

Definition M (S A : Type) : Type := S -> Res A * S.

Definition ret {S A} (a : A) : M S A := fun s => (Ok a, s).
Definition raise {S A} (e : Exn) : M S A := fun s => (Raise e, s).

Definition bind {S A B} (m : M S A) (k : A -> M S B) : M S B :=
  fun s =>
    match m s with
    | (Ok a, s') => k a s'
    | (Raise e, s') => (Raise e, s')
    | (Replaced p a, s') => (Replaced p a, s')
    end.

Notation "x <- m ;; k" := (bind m (fun x => k))
  (at level 100, m at next level, right associativity).
Notation "m ;;; k" := (bind m (fun _ => k))
  (at level 100, right associativity).

Definition get {S} : M S S := fun s => (Ok s, s).
Definition modify {S} (f : S -> S) : M S unit := fun s => (Ok tt, f s).

(** [try: body finally: cleanup]: the cleanup runs on return and on
    raise; nothing runs after the process image is gone. *)
Definition try_finally {S A} (body : M S A) (cleanup : M S unit) : M S A :=
  fun s =>
    match body s with
    | (Ok a, s') =>
        match cleanup s' with
        | (Ok _, s'') => (Ok a, s'')
        | (Raise e, s'') => (Raise e, s'')
        | (Replaced p a', s'') => (Replaced p a', s'')
        end
    | (Raise e, s') =>
        match cleanup s' with
        | (Ok _, s'') => (Raise e, s'')
        | (Raise e', s'') => (Raise e', s'')
        | (Replaced p a', s'') => (Replaced p a', s'')
        end
    | (Replaced p a, s') => (Replaced p a, s')
    end.

(** ** The world of the System module *)

(** A [pyrogram] message, as far as the module looks at it. *)
Record Message : Type := mkMessage {
  chat_id : Z;
  message_id : Z;
  text : string;
}.

(** [command.Context] *)
Record Context : Type := mkContext {
  cmd : list string;
  input : string;
  msg : Message;
}.

(** One element of a git diff. *)
Record Change : Type := mkChange {
  a_path : option string;
}.

(** A [git.Repo]. *)
Record Repo : Type := mkRepo {
  active_branch_name : string;
  working_tree_dir : string;
}.

(** Calls that leave the module, in the order they are made. *)
Inductive Event : Type :=
| EvCtxRespond (body : string)
| EvLogInfo (body : string)
| EvDbFindOne (id : Z)
| EvDbAddToSet (id : Z) (field : string) (v : value)
| EvDbDeleteOne (id : Z)
| EvBotStop
| EvGetMessages (chat message : value)
| EvBotRespond (target : Message) (body : string)
| EvMeval (code : string)
| EvExecv (path : string) (argv : list string)
| EvPull (remote : string)
| EvRunCommand (argv : list string)
| EvCmdRestart (restart_time : option Z) (reason : string).

Record World : Type := mkWorld {
  (** the "system" collection, by [_id] *)
  db : gmap Z document;
  (** [self.restart_pending] *)
  restart_pending : bool;
  (** [self.bot.stop_manual] *)
  stop_manual : bool;
  (** how many times the clock was read *)
  clock_reads : nat;
  trace : list Event;
}.

Definition set_db (f : gmap Z document -> gmap Z document) (w : World) : World :=
  mkWorld (f (db w)) (restart_pending w) (stop_manual w) (clock_reads w)
          (trace w).
Definition set_restart_pending (b : bool) (w : World) : World :=
  mkWorld (db w) b (stop_manual w) (clock_reads w) (trace w).
Definition set_stop_manual (b : bool) (w : World) : World :=
  mkWorld (db w) (restart_pending w) b (clock_reads w) (trace w).
Definition tick (w : World) : World :=
  mkWorld (db w) (restart_pending w) (stop_manual w) (S (clock_reads w))
          (trace w).
Definition log_event (e : Event) (w : World) : World :=
  mkWorld (db w) (restart_pending w) (stop_manual w) (clock_reads w)
          (trace w ++ [e]).

(** An [io.StringIO]: its contents, the stream position (the snippet
    reaches the buffer as [stdout] and can seek in it) and whether it
    was closed. *)
Record StringIO : Type := mkStringIO {
  sio_value : string;
  sio_pos : nat;
  sio_closed : bool;
}.

(** [io.StringIO()] *)
Definition new_StringIO : StringIO := mkStringIO "" 0 false.

(** What running a snippet through [meval] did: the state of [out_buf]
    when it finished, and how it finished. *)
Record SnippetRun : Type := mkRun {
  sr_buffer : StringIO;
  sr_outcome : Exn + pyval;
}.

(** The collaborators.  Each answer may depend on the whole world at the
    time of the call, trace included. *)
Record Env : Type := mkEnv {
  (** [self.bot.uid] *)
  uid : Z;
  (** [sys.executable] *)
  sys_executable : string;
  (** the command line the running process was started with *)
  orig_argv : list string;
  (** the n-th reading of [util.time.usec()] *)
  usec_at : nat -> Z;
  (** [util.time.format_duration_us] *)
  format_duration_us : Z -> string;
  (** [util.error.format_exception(e, tb=...)] *)
  format_exception : Exn -> list Frame -> string;
  ctx_respond : World -> Context -> string -> Exn + Message;
  bot_stop : World -> option Exn;
  get_messages : World -> value -> value -> Exn + Message;
  bot_respond : World -> Message -> string -> Exn + Message;
  meval : World -> string -> SnippetRun;
  os_execv : World -> string -> list string -> option Exn;
  (** [util.git.have_git], [util.git.get_repo], [repo.remote(name)],
      [util.git.get_current_remote], [remote.pull], [old_commit.diff()] *)
  have_git : bool;
  get_repo : option Repo;
  repo_remote : string -> Exn + string;
  get_current_remote : option string;
  remote_pull : string -> option Exn;
  commit_diff : list Change;
  (** [util.system.get_venv_path], [util.system.run_command] *)
  get_venv_path : option string;
  run_command : list string -> Exn + (string * string * Z);
  (** [str(Path(prefix) / "bin" / "pip")] *)
  pip_path : string -> string;
}.

(** ** The evaluation sandbox: traceback filtering *)

(** The test of the loop in [_eval]:
    [frame.filename == "<string>" or frame.filename.endswith("ast.py")]. *)
Definition involves_snippet (frame : Frame) : bool :=
  String.eqb (filename frame) "<string>" || endswith (filename frame) "ast.py".

(** [for i, frame in enumerate(tb): if ...: first_snip_idx = i; break],
    starting from [first_snip_idx = -1]. *)
Fixpoint first_snip_from (i : Z) (tb : list Frame) : Z :=
  match tb with
  | [] => -1
  | frame :: rest =>
      if involves_snippet frame then i else first_snip_from (i + 1) rest
  end.

Definition first_snip_idx (tb : list Frame) : Z := first_snip_from 0 tb.

(** [tb[i:]], with Python's reading of a negative start. *)
Definition slice_from {A} (l : list A) (i : Z) : list A :=
  if i <? 0 then drop (Z.to_nat (Z.max 0 (Z.of_nat (length l) + i))) l
  else drop (Z.to_nat i) l.

(** What the [except] branch of [_eval] does with the traceback: [None]
    when the exception is raised again, otherwise the frames handed to
    [format_exception]. *)
Definition stripped_tb (tb : list Frame) : option (list Frame) :=
  let idx := first_snip_idx tb in
  if idx =? -1 then None else Some (slice_from tb idx).

Definition error_prefix : string :=
  "⚠️ Error executing snippet" +:+ nl +:+ nl.

(** [if out.endswith("\n"): out = out[:-1]] *)
Definition strip_one_newline (out : string) : string :=
  if endswith out nl then drop_last out else out.

Definition ValueError (msg : string) : Exn := mkExn "ValueError" msg true [].

(** [s[:n]] and [s[n:]] *)
Fixpoint str_take (n : nat) (s : string) : string :=
  match n, s with
  | S k, String c rest => String c (str_take k rest)
  | _, _ => EmptyString
  end.

Fixpoint str_drop (n : nat) (s : string) : string :=
  match n, s with
  | S k, String c rest => str_drop k rest
  | _, _ => s
  end.

Fixpoint nul_pad (n : nat) : string :=
  match n with
  | O => EmptyString
  | S k => String Ascii.zero (nul_pad k)
  end.

(** [b.write(s)] on an open buffer: [s] goes in at the stream position,
    over what is there, after padding with NUL up to the position when
    that lies beyond the end; the position moves past what was
    written. *)
Definition sio_write (b : StringIO) (s : string) : StringIO :=
  let padded :=
    sio_value b +:+ nul_pad (sio_pos b - String.length (sio_value b)) in
  mkStringIO
    (str_take (sio_pos b) padded +:+ s +:+
     str_drop (sio_pos b + String.length s) padded)
    (sio_pos b + String.length s)
    (sio_closed b).

(** [b.getvalue()] *)
Definition getvalue (b : StringIO) : Exn + string :=
  if sio_closed b then inl (ValueError "I/O operation on closed file")
  else inr (sio_value b).

(** [print] of [args] to the file [out], with the default separator and
    end (the text and the end are written one after the other, which
    comes to one write of both). *)
Definition py_print (args : list pyval) (out : StringIO) : Exn + StringIO :=
  if sio_closed out then inl (ValueError "I/O operation on closed file")
  else inr (sio_write out (String.concat " " (map py_str args) +:+ nl)).

(** [_print], the [print] of the snippet: without a [file] among the
    keyword arguments it prints to [out_buf]. *)
Definition _print (args : list pyval) (out_buf : StringIO)
  : Exn + StringIO :=
  py_print args out_buf.

(** [print(result, file=out_buf)] *)
Definition print_to (out_buf : StringIO) (result : pyval) : Exn + StringIO :=
  py_print [result] out_buf.

(** The condition guarding that [print]:
    [not out_buf.getvalue() or result is not None]. *)
Definition writes_result (out_buf : string) (result : pyval) : bool :=
  String.eqb out_buf "" || is_not_None result.

(** [out_buf] after
    [if not out_buf.getvalue() or result is not None: print(...)]. *)
Definition collect_result (out_buf : StringIO) (result : pyval)
  : Exn + StringIO :=
  match getvalue out_buf with
  | inl e => inl e
  | inr contents =>
      if writes_result contents result then print_to out_buf result
      else inr out_buf
  end.

(** The f-string returned by [cmd_eval]. *)
Definition eval_report (prefix code out el_str : string) : string :=
  prefix +:+ "**In:**" +:+ nl +:+
  "```" +:+ code +:+ "```" +:+ nl +:+ nl +:+
  "**Out:**" +:+ nl +:+
  "```" +:+ out +:+ "```" +:+ nl +:+ nl +:+
  "Time: " +:+ el_str.

(** ** The restart state store *)

(** [v[0]] *)
Definition subscript0 (v : value) : Exn + value :=
  match v with
  | VNone => inl (TypeError "'NoneType' object is not subscriptable")
  | VBool _ => inl (TypeError "'bool' object is not subscriptable")
  | VInt _ => inl (TypeError "'int' object is not subscriptable")
  | VStr EmptyString => inl (IndexError "string index out of range")
  | VStr (String c _) => inr (VStr (String c EmptyString))
  | VList [] => inl (IndexError "list index out of range")
  | VList (x :: _) => inr x
  | VDict _ => inl (KeyError "0")
  end.

(** [type(v).__name__] *)
Definition type_name (v : value) : string :=
  match v with
  | VNone => "NoneType"
  | VBool _ => "bool"
  | VInt _ => "int"
  | VStr _ => "str"
  | VList _ => "list"
  | VDict _ => "dict"
  end.

(** [v.get(key)]: only a dict has the method. *)
Definition method_get (v : value) (key : string) : Exn + value :=
  match v with
  | VDict d => inr (dict_get key d)
  | _ =>
      inl (AttributeError
             ("'" +:+ type_name v +:+ "' object has no attribute 'get'"))
  end.

(** [n - v] for an [int] n: integer subtraction, a [bool] counting as 0
    or 1; the other kinds do not subtract. *)
Definition int_sub (n : Z) (v : value) : Exn + Z :=
  match v with
  | VInt m => inr (n - m)
  | VBool b => inr (n - (if b then 1 else 0))
  | _ =>
      inl (TypeError
             ("unsupported operand type(s) for -: 'int' and '" +:+
              type_name v +:+ "'"))
  end.

(** The record [cmd_restart] writes, field by field as in the source. *)
Definition restart_record (resp_msg : Message) (time : Z) (reason : string)
  : value :=
  VDict [("status_chat_id"%string, VInt (chat_id resp_msg));
         ("status_message_id"%string, VInt (message_id resp_msg));
         ("time"%string, VInt time);
         ("reason"%string, VStr reason)].

(** [update_one({"_id": id}, {"$addToSet": {field: v}}, upsert=True)] on
    the collection: a missing document is created, a missing field
    becomes a one-element array, an array gets [v] appended unless it
    already holds it, and any other field value is a write error. *)
Definition add_to_set (id : Z) (field : string) (v : value)
    (coll : gmap Z document) : Exn + gmap Z document :=
  match coll !! id with
  | None => inr (<[id := [("_id"%string, VInt id); (field, VList [v])]]> coll)
  | Some doc =>
      match dict_lookup field doc with
      | None => inr (<[id := dict_set field (VList [v]) doc]> coll)
      | Some (VList l) =>
          if existsb (value_eqb v) l then inr coll
          else inr (<[id := dict_set field (VList (l ++ [v])) doc]> coll)
      | Some _ =>
          inl (WriteError "Cannot apply $addToSet to non-array field")
      end
  end.

Section SystemModule.

Variable env : Env.

Definition usec : M World Z :=
  fun w => (Ok (usec_at env (clock_reads w)), tick w).

Definition log_info (body : string) : M World unit :=
  modify (log_event (EvLogInfo body)).

(** A call to a collaborator that answers or raises. *)
Definition call {A} (e : Event) (answer : World -> Exn + A) : M World A :=
  fun w =>
    match answer w with
    | inl exn => (Raise exn, log_event e w)
    | inr a => (Ok a, log_event e w)
    end.

(** A call to a collaborator that returns nothing, or raises. *)
Definition call_ (e : Event) (answer : World -> option Exn) : M World unit :=
  fun w =>
    match answer w with
    | Some exn => (Raise exn, log_event e w)
    | None => (Ok tt, log_event e w)
    end.

(** An expression that evaluates or raises. *)
Definition lift {A} (r : Exn + A) : M World A :=
  match r with
  | inl e => raise e
  | inr a => ret a
  end.

(** [_eval], closed over [out_buf]: the buffer it leaves behind comes
    with its result [(prefix, result)]. *)
Definition _eval (code : string) : M World (StringIO * (string * pyval)) :=
  fun w =>
    let run := meval env w code in
    let w' := log_event (EvMeval code) w in
    match sr_outcome run with
    | inr v => (Ok (sr_buffer run, (""%string, v)), w')
    | inl e =>
        if is_Exception e then
          match stripped_tb (exc_tb e) with
          | None => (Raise e, w')
          | Some frames =>
              let formatted_tb := format_exception env e frames in
              (Ok (sr_buffer run, (error_prefix, PyStr formatted_tb)), w')
          end
        else (Raise e, w')
    end.

Definition cmd_eval (ctx : Context) : M World string :=
  match cmd ctx with
  | [] => ret "Give me code to evaluate."%string
  | _ :: _ =>
      match split_space_1_snd (text (msg ctx)) with
      | None => raise (IndexError "list index out of range")
      | Some code =>
          before <- usec ;;
          r <- _eval code ;;
          after <- usec ;;
          out_buf <- lift (collect_result (fst r) (snd (snd r))) ;;
          let el_us := after - before in
          let el_str := format_duration_us env el_us in
          out <- lift (getvalue out_buf) ;;
          let out := strip_one_newline out in
          ret (eval_report (fst (snd r)) code out el_str)
      end
  end.

(** *** The document store, keyed by the bot's identity

    The store calls sit under [async with self.lock]; within one handler
    the lock is free when it is taken and released right after the
    call, so it does not show in the model. *)

Definition db_find_one (id : Z) : M World (option document) :=
  fun w => (Ok (db w !! id), log_event (EvDbFindOne id) w).

Definition db_update_one_add_to_set (id : Z) (field : string) (v : value)
  : M World unit :=
  fun w =>
    let w' := log_event (EvDbAddToSet id field v) w in
    match add_to_set id field v (db w) with
    | inl e => (Raise e, w')
    | inr coll => (Ok tt, set_db (fun _ => coll) w')
    end.

Definition db_delete_one (id : Z) : M World unit :=
  modify (fun w => set_db (delete id) (log_event (EvDbDeleteOne id) w)).

(** *** The restart coordinator *)

(** [restart_time or util.time.usec()] *)
Definition restart_time_or_now (restart_time : option Z) : M World Z :=
  match restart_time with
  | None => usec
  | Some t => if t =? 0 then usec else ret t
  end.

(** [cmd_restart].  The first step only records the invocation in the
    trace, so that calls of the coordinator can be counted. *)
Definition cmd_restart (ctx : Context) (restart_time : option Z)
    (reason : string) : M World unit :=
  modify (log_event (EvCmdRestart restart_time reason)) ;;;
  resp_msg <- call (EvCtxRespond "Restarting bot...")
                   (fun w => ctx_respond env w ctx "Restarting bot...") ;;
  time <- restart_time_or_now restart_time ;;
  db_update_one_add_to_set (uid env) "restart"
    (restart_record resp_msg time reason) ;;;
  modify (set_restart_pending true) ;;;
  modify (set_stop_manual true) ;;;
  log_info "Preparing to restart..." ;;;
  call_ EvBotStop (bot_stop env).

(** The text of the resumption report, from the reason read back. *)
Definition updated_qualifier (rs_reason : value) : string :=
  if value_eqb rs_reason (VStr "update") then "updated and " else "".

Definition on_start (time_us : Z) : M World unit :=
  data <- db_find_one (uid env) ;;
  match data with
  | None => ret tt
  | Some data =>
      restart <- lift (subscript0 (dict_get "restart" data)) ;;
      rs_time <- lift (method_get restart "time") ;;
      rs_chat_id <- lift (method_get restart "status_chat_id") ;;
      rs_message_id <- lift (method_get restart "status_message_id") ;;
      rs_reason <- lift (method_get restart "restart_reason") ;;
      db_delete_one (uid env) ;;;
      if is_None rs_chat_id || is_None rs_message_id then ret tt
      else
        let updated := updated_qualifier rs_reason in
        now <- usec ;;
        delta <- lift (int_sub now rs_time) ;;
        let duration := format_duration_us env delta in
        log_info ("Bot " +:+ updated +:+ "restarted in " +:+ duration) ;;;
        status_msg <- call (EvGetMessages rs_chat_id rs_message_id)
                           (fun w => get_messages env w rs_chat_id
                                       rs_message_id) ;;
        _ <- call (EvBotRespond status_msg
                     ("Bot " +:+ updated +:+ "restarted in " +:+ duration
                      +:+ "."))
                  (fun w => bot_respond env w status_msg
                     ("Bot " +:+ updated +:+ "restarted in " +:+ duration
                      +:+ ".")) ;;
        ret tt
  end.

(** *** The process supervisor hook *)

(** [os.execv(path, argv)]: the process image is replaced, or the call
    raises; it never returns. *)
Definition execv (path : string) (argv : list string) : M World unit :=
  fun w =>
    let w' := log_event (EvExecv path argv) w in
    match os_execv env w path argv with
    | Some e => (Raise e, w')
    | None => (Replaced path argv, w')
    end.

(** [sys.exit()] *)
Definition sys_exit : M World unit := raise SystemExit.

Definition on_stopped : M World unit :=
  w <- get ;;
  if restart_pending w then
    log_info ("Starting new bot instance..." +:+ nl) ;;;
    execv (sys_executable env)
          [sys_executable env; "-m"%string; "caligo"%string] ;;;
    sys_exit
  else ret tt.

(** *** Self-update *)

Definition no_git_reply : string :=
  "__The__ `git` __command is required for self-updating.__".
Definition no_repo_reply : string :=
  "__Unable to locate Git repository data.__".
Definition remote_not_found_reply (remote_name : string) : string :=
  "__Remote__ `" +:+ remote_name +:+ "` __not found.__".
Definition no_tracking_reply (branch : string) : string :=
  "__Current branch__ `" +:+ branch +:+ "` __is not tracking a remote.__".
Definition no_updates_reply : string := "No updates found.".
Definition dependency_error_reply (stdout : string) : string :=
  "⚠️ Error updating dependencies:" +:+ nl +:+ nl +:+
  "```" +:+ stdout +:+ "```" +:+ nl +:+ nl +:+
  "Fix the issue manually and then restart the bot.".
Definition manual_update_reply : string :=
  "Successfully pulled updates." +:+ nl +:+ nl +:+
  "**Update dependencies manually** to avoid errors, then restart the bot for the update to take effect."
  +:+ nl +:+ nl +:+
  "Dependency updates are automatic if you're running the bot in a virtualenv.".

(** [any(change.a_path == "poetry.lock" for change in diff)] *)
Definition touches_lock_file (diff : list Change) : bool :=
  existsb (fun change =>
             match a_path change with
             | Some p => String.eqb p "poetry.lock"
             | None => false
             end) diff.

(** Truth value of an optional string: [None] and [""] are false. *)
Definition truthy (s : option string) : bool :=
  match s with
  | Some (String _ _) => true
  | _ => false
  end.

(** The last two lines of [cmd_update]. *)
Definition restart_after_update (ctx : Context) (update_time : Z)
  : M World (option string) :=
  cmd_restart ctx (Some update_time) "update" ;;;
  ret None.

(** [cmd_update] from "Save time and old commit for diffing" on, with
    the repository and the remote resolved.  [old_commit] is only used
    for the diff, which the environment answers. *)
Definition pull_and_restart (ctx : Context) (repo : Repo) (remote : string)
  : M World (option string) :=
  update_time <- usec ;;
  _ <- call (EvCtxRespond ("Pulling changes from `" +:+ remote +:+ "`..."))
            (fun w => ctx_respond env w ctx
                        ("Pulling changes from `" +:+ remote +:+ "`...")) ;;
  call_ (EvPull remote) (fun _ => remote_pull env remote) ;;;
  let diff := commit_diff env in
  match diff with
  | [] => ret (Some no_updates_reply)
  | _ :: _ =>
      if touches_lock_file diff then
        let prefix := get_venv_path env in
        if truthy prefix then
          let pip := pip_path env (default ""%string prefix) in
          _ <- call (EvCtxRespond "Updating dependencies...")
                    (fun w => ctx_respond env w ctx
                                "Updating dependencies...") ;;
          r <- call (EvRunCommand [pip; "install"%string;
                                   working_tree_dir repo])
                    (fun _ => run_command env
                                [pip; "install"%string;
                                 working_tree_dir repo]) ;;
          if negb (snd r =? 0) then
            ret (Some (dependency_error_reply (fst (fst r))))
          else restart_after_update ctx update_time
        else ret (Some manual_update_reply)
      else restart_after_update ctx update_time
  end.

Definition cmd_update (ctx : Context) : M World (option string) :=
  let remote_name := input ctx in
  if negb (have_git env) then ret (Some no_git_reply)
  else
    match get_repo env with
    | None => ret (Some no_repo_reply)
    | Some repo =>
        if truthy (Some remote_name) then
          match repo_remote env remote_name with
          | inl e =>
              if String.eqb (exc_type e) "ValueError"
              then ret (Some (remote_not_found_reply remote_name))
              else raise e
          | inr remote => pull_and_restart ctx repo remote
          end
        else
          match get_current_remote env with
          | None => ret (Some (no_tracking_reply (active_branch_name repo)))
          | Some remote => pull_and_restart ctx repo remote
          end
    end.

End SystemModule.

(** ** The other handlers of the module *)

(** [s[-1:]] *)
Fixpoint last_char (s : string) : string :=
  match s with
  | EmptyString => EmptyString
  | String c EmptyString => String c EmptyString
  | String c rest => last_char rest
  end.

(** [s.split("\n")] *)
Fixpoint split_lines (s : string) : list string :=
  match s with
  | EmptyString => [EmptyString]
  | String c rest =>
      if Ascii.eqb c (ascii_of_nat 10) then EmptyString :: split_lines rest
      else
        match split_lines rest with
        | line :: lines => String c line :: lines
        | [] => [String c EmptyString]
        end
  end.

(** [f"⚠️ Return code: {ret}" if ret != 0 else ""] *)
Definition return_code_warning (ret : Z) : string :=
  if negb (ret =? 0) then "⚠️ Return code: " +:+ str_of_int ret else "".

(** The output shown by [cmd_shell]:
    [if not stdout: stdout = "[no output]"]
    [elif stdout[-1:] != "\n": stdout += "\n"]. *)
Definition shell_output (stdout : string) : string :=
  if String.eqb stdout "" then "[no output]"
  else if negb (String.eqb (last_char stdout) nl) then stdout +:+ nl
  else stdout.

(** The system information shown by [cmd_sysinfo]:
    ["\n".join(stdout.split("\n")[2:]) if ret == 0 else stdout]. *)
Definition sysinfo_output (stdout : string) (ret : Z) : string :=
  if ret =? 0 then String.concat nl (drop 2 (split_lines stdout)) else stdout.

Definition sysinfo_timeout_reply : string :=
  "🕑 `neofetch` failed to finish within 1 minute.".
Definition sysinfo_not_found_reply : string :=
  "❌ [neofetch](https://github.com/dylanaraps/neofetch) " +:+
  "must be installed on the host system.".

Definition shell_not_found_report (text formatted el_str : string) : string :=
  "**In:**" +:+ nl +:+ "```" +:+ text +:+ "```" +:+ nl +:+ nl +:+
  "**Out:**" +:+ nl +:+
  "⚠️ Error executing command:" +:+ nl +:+ "```" +:+ formatted +:+ "```"
  +:+ nl +:+ nl +:+
  "Time: " +:+ el_str.

Definition shell_timeout_report (text el_str : string) : string :=
  "**In:**" +:+ nl +:+ "```" +:+ text +:+ "```" +:+ nl +:+ nl +:+
  "**Out:**" +:+ nl +:+
  "🕑 Snippet failed to finish within 2 minutes." +:+ nl +:+ nl +:+
  "Time: " +:+ el_str.

Definition shell_report (text stdout : string) (ret : Z) (el_str : string)
  : string :=
  "**In:**" +:+ nl +:+ "```" +:+ text +:+ "```" +:+ nl +:+ nl +:+
  "**Out:**" +:+ nl +:+ "```" +:+ shell_output stdout +:+ "```" +:+
  return_code_warning ret +:+ (nl +:+ "Time: " +:+ el_str).

(** [try: body except ...]: what the body returned, or the exception it
    raised when a handler of the statement catches it; any other
    exception goes on. *)
Definition attempt {S A} (body : M S A) (caught : Exn -> bool)
  : M S (Exn + A) :=
  fun s =>
    match body s with
    | (Ok a, s') => (Ok (inr a), s')
    | (Raise e, s') => if caught e then (Ok (inl e), s') else (Raise e, s')
    | (Replaced p a, s') => (Replaced p a, s')
    end.

Definition is_FileNotFoundError (e : Exn) : bool :=
  String.eqb (exc_type e) "FileNotFoundError".
Definition is_TimeoutError (e : Exn) : bool :=
  String.eqb (exc_type e) "TimeoutError".

Section OtherHandlers.

Variable env : Env.

(** [util.error.format_exception(E)], called without a traceback. *)
Variable format_exception_default : Exn -> string.

(** [on_load]: the flag starts false.  The lock and the handle on the
    "system" collection it creates are the ones of the world. *)
Definition on_load : M World unit := modify (set_restart_pending false).

(** [util.system.run_command(..., timeout=...)]: the environment answers
    for the run under that timeout, [TimeoutError] included. *)
Definition run_with_timeout (timeout : Z) (argv : list string)
  : M World (string * string * Z) :=
  call (EvRunCommand argv) (fun _ => run_command env argv).

Definition cmd_sysinfo (ctx : Context) : M World string :=
  _ <- call (EvCtxRespond "Collecting system information...")
            (fun w => ctx_respond env w ctx
                        "Collecting system information...") ;;
  r <- attempt (run_with_timeout 60 ["neofetch"; "--stdout"]%string)
               (fun e => is_TimeoutError e || is_FileNotFoundError e) ;;
  match r with
  | inl e =>
      if is_TimeoutError e then ret sysinfo_timeout_reply
      else ret sysinfo_not_found_reply
  | inr out =>
      let stdout := fst (fst out) in
      let code := snd out in
      let err := return_code_warning code in
      let sysinfo := sysinfo_output stdout code in
      ret ("```" +:+ sysinfo +:+ "```" +:+ err)
  end.

Definition cmd_shell (ctx : Context) : M World string :=
  match cmd ctx with
  | [] => ret "Give me code to run"%string
  | _ :: _ =>
      let snip := cmd ctx in
      let text := String.concat " " (cmd ctx) in
      _ <- call (EvCtxRespond "Running snippet...")
                (fun w => ctx_respond env w ctx "Running snippet...") ;;
      before <- usec env ;;
      r <- attempt (run_with_timeout 120 snip)
                   (fun e => is_FileNotFoundError e || is_TimeoutError e) ;;
      match r with
      | inl e =>
          after <- usec env ;;
          if is_FileNotFoundError e then
            ret (shell_not_found_report text (format_exception_default e)
                   (format_duration_us env (after - before)))
          else
            ret (shell_timeout_report text
                   (format_duration_us env (after - before)))
      | inr out =>
          after <- usec env ;;
          let el_us := after - before in
          ret (shell_report text (fst (fst out)) (snd out)
                 (format_duration_us env el_us))
      end
  end.

Definition cmd_stop (ctx : Context) : M World unit :=
  _ <- call (EvCtxRespond "Stopping bot...")
            (fun w => ctx_respond env w ctx "Stopping bot...") ;;
  modify (set_stop_manual true) ;;;
  _ <- call (EvCtxRespond "Stopped")
            (fun w => ctx_respond env w ctx "Stopped") ;;
  call_ EvBotStop (bot_stop env).

End OtherHandlers.

(** ** [caligo/util/silent.py] *)

Module Silent.

(** The interpreter state [silent] touches: the stream bound to
    [sys.stdout] and the file objects that are open, both by handle. *)
Record PyState : Type := mkPyState {
  sys_stdout : nat;
  open_files : gset nat;
  next_handle : nat;
}.

Definition set_stdout (h : nat) (s : PyState) : PyState :=
  mkPyState h (open_files s) (next_handle s).

(** [open(os.devnull, "w")]: a fresh file object, or [OSError]. *)
Definition open_devnull (fails : PyState -> option Exn) : M PyState nat :=
  fun s =>
    match fails s with
    | Some e => (Raise e, s)
    | None =>
        let h := next_handle s in
        (Ok h, mkPyState (sys_stdout s) ({[h]} ∪ open_files s) (S h))
    end.

(** [f.close()] *)
Definition close (h : nat) : M PyState unit :=
  modify (fun s => mkPyState (sys_stdout s) (open_files s ∖ {[h]})
                             (next_handle s)).

(** [with open(os.devnull, "w") as devnull: body]: the file is closed
    however the body ends. *)
Definition with_open_devnull {A} (fails : PyState -> option Exn)
    (body : nat -> M PyState A) : M PyState A :=
  devnull <- open_devnull fails ;;
  try_finally (body devnull) (close devnull).

(** [async with silent(): body].  Under [asynccontextmanager] the body of
    the [async with] runs at the [yield]; an exception it raises is
    thrown into the generator there. *)
Definition silent {A} (fails : PyState -> option Exn) (body : M PyState A)
  : M PyState A :=
  with_open_devnull fails (fun devnull =>
    old_stdout <- (s <- get ;; ret (sys_stdout s)) ;;
    modify (set_stdout devnull) ;;;
    try_finally body (modify (set_stdout old_stdout))).

(** The state in which the body of [async with silent()] starts: the
    null device is open under a fresh handle and bound to [sys.stdout]. *)
Definition inside (s : PyState) : PyState :=
  mkPyState (next_handle s) ({[next_handle s]} ∪ open_files s)
            (S (next_handle s)).

(** A body that rebinds [sys.stdout], opens a file of its own, and then
    raises. *)
Definition unruly_body : M PyState unit :=
  fun s => (Raise (mkExn "RuntimeError" "boom" true []),
            mkPyState 99 ({[S (next_handle s)]} ∪ open_files s)
                      (S (S (next_handle s)))).

Definition console_state : PyState := mkPyState 1 {[0%nat; 1%nat; 2%nat]} 3.

End Silent.

(** ** Sample collaborators

    Concrete environments on which the handlers can be run. *)

Definition frame_in_module : Frame :=
  mkFrame "caligo/modules/system.py" 182 "_eval".
Definition frame_in_meval : Frame :=
  mkFrame "meval/__init__.py" 42 "meval".
Definition frame_in_snippet : Frame := mkFrame "<string>" 1 "tmp".
Definition frame_in_util : Frame := mkFrame "caligo/util/git.py" 17 "get_repo".
Definition frame_in_ast : Frame := mkFrame "/usr/lib/python3.9/ast.py" 50 "parse".

(** A formatter that lists the file of each frame it is given. *)
Definition list_files (e : Exn) (frames : list Frame) : string :=
  fold_right (fun f acc => filename f +:+ nl +:+ acc) (exc_type e) frames.

Definition sample_message : Message := mkMessage 5 42 "Restarting bot...".

Definition sample_env (run : SnippetRun) (diff : list Change)
    (venv : option string) : Env :=
  {| uid := 777;
     sys_executable := "/usr/bin/python3";
     orig_argv := ["/usr/bin/python3"; "-O"; "-m"; "caligo"]%string;
     usec_at := fun n => 1000 + 10 * Z.of_nat n;
     format_duration_us := fun d => str_of_int d +:+ " us";
     format_exception := list_files;
     ctx_respond := fun _ _ body => inr (mkMessage 5 42 body);
     bot_stop := fun _ => None;
     get_messages := fun _ _ _ => inr sample_message;
     bot_respond := fun _ target body =>
                      inr (mkMessage (chat_id target) (message_id target) body);
     meval := fun _ _ => run;
     os_execv := fun _ _ _ => None;
     have_git := true;
     get_repo := Some (mkRepo "master" "/srv/caligo");
     repo_remote := fun remote_name => inr remote_name;
     get_current_remote := Some "origin"%string;
     remote_pull := fun _ => None;
     commit_diff := diff;
     get_venv_path := venv;
     run_command := fun _ => inr (""%string, ""%string, 0);
     pip_path := fun prefix => prefix +:+ "/bin/pip" |}.

Definition fresh_world (coll : gmap Z document) : World :=
  mkWorld coll false false 0 [].

Definition eval_ctx (body : string) : Context :=
  mkContext ["eval"%string] ""%string (mkMessage 5 41 body).

(** A snippet that calls into the framework, which raises. *)
Definition run_raising_in_util : SnippetRun :=
  mkRun new_StringIO (inl (mkExn "ValueError" "no repo" true
                   [frame_in_module; frame_in_meval; frame_in_snippet;
                    frame_in_util])).

(** A snippet that does not parse: the error comes out of [ast.parse]. *)
Definition run_syntax_error : SnippetRun :=
  mkRun new_StringIO (inl (mkExn "SyntaxError" "invalid syntax" true
                   [frame_in_module; frame_in_meval; frame_in_ast])).

(** [print("hello")], returning nothing. *)
Definition run_print_hello : SnippetRun :=
  mkRun (mkStringIO ("hello" +:+ nl) 6 false) (inr PyNone).

(** A snippet that prints a line followed by an empty line. *)
Definition run_two_newlines : SnippetRun :=
  mkRun (mkStringIO (("a" +:+ nl) +:+ nl) 3 false) (inr PyNone).

(** [print('x'); return 42] *)
Definition run_print_and_return : SnippetRun :=
  mkRun (mkStringIO ("x" +:+ nl) 2 false) (inr (PyInt 42)).

(** [pass]: nothing printed, nothing returned. *)
Definition run_return_none : SnippetRun := mkRun new_StringIO (inr PyNone).

(** [return 42], printing nothing. *)
Definition run_return_42 : SnippetRun :=
  mkRun new_StringIO (inr (PyInt 42)).

Definition update_ctx : Context :=
  mkContext ["update"%string] ""%string (mkMessage 5 40 "/update").

Definition readme_change : Change := mkChange (Some "README.md"%string).
Definition lock_change : Change := mkChange (Some "poetry.lock"%string).

(** ** Vocabulary of the statements, sample runs *)

Definition not_snippet (f : Frame) : Prop := involves_snippet f = false.

(** A sandbox failure: the exception never reaches the snippet. *)
Definition run_sandbox_failure : SnippetRun :=
  mkRun new_StringIO (inl (mkExn "RuntimeError" "meval broke" true
                   [frame_in_module; frame_in_meval])).

Definition update_record : value :=
  restart_record sample_message 1000 "update".

Definition stored_update : gmap Z document :=
  {[ 777 := [("_id"%string, VInt 777); ("restart"%string, VList [update_record])] ]}.

(** The world of a process that took over some time after the record
    was written. *)
Definition resumed_world (coll : gmap Z document) : World :=
  mkWorld coll false false 50 [].

(** One boot of a new process on the stored collection: the module is
    loaded ([restart_pending] is false) and [on_start] runs. *)
Definition boot (env : Env) (coll : gmap Z document) : Res unit * World :=
  on_start env (usec_at env 0) (fresh_world coll).

(** [n] boots in a row, each on the collection the previous one left:
    the outcomes of [on_start], and the collection at the end. *)
Fixpoint boots (env : Env) (n : nat) (coll : gmap Z document)
  : list (Res unit) * gmap Z document :=
  match n with
  | O => ([], coll)
  | S k =>
      let (r, w) := boot env coll in
      let (rs, coll') := boots env k (db w) in
      (r :: rs, coll')
  end.

(** The exception of [data.get("restart")[0]] on a document without a
    record. *)
Definition no_record_error (doc : document) : Exn :=
  match dict_lookup "restart" doc with
  | None => TypeError "'NoneType' object is not subscriptable"
  | Some _ => IndexError "list index out of range"
  end.

Definition empty_record_doc : document :=
  [("_id"%string, VInt 777); ("restart"%string, VList [])].

(** A process started as [python3 -O -m caligo] with a restart pending. *)
Definition stopping_world : World := mkWorld ∅ true true 1 [EvBotStop].

Definition is_restart_call (e : Event) : bool :=
  match e with
  | EvCmdRestart _ _ => true
  | _ => false
  end.

(** How many times the restart coordinator was invoked in a trace. *)
Fixpoint restart_calls (evs : list Event) : nat :=
  match evs with
  | [] => 0%nat
  | e :: rest => ((if is_restart_call e then 1 else 0) + restart_calls rest)%nat
  end.

(** The pulled changes are not empty, and either leave the lock file
    alone or the reinstall in the detected virtualenv exited with 0. *)
Definition restart_allowed (env : Env) (repo : Repo) : Prop :=
  commit_diff env <> [] /\
  (touches_lock_file (commit_diff env) = false \/
   (truthy (get_venv_path env) = true /\
    exists out err,
      run_command env
        [pip_path env (default ""%string (get_venv_path env));
         "install"%string; working_tree_dir repo] = inr (out, err, 0))).

(** The pull was attempted and went through. *)
Definition pulled (env : Env) (evs : list Event) : Prop :=
  exists remote, In (EvPull remote) evs /\ remote_pull env remote = None.

(** What a run of the update flow on world [w] with outcome [r] did, as
    far as the restart coordinator is concerned. *)
Definition update_rule (env : Env) (repo : Repo) (w : World)
    (r : Res (option string) * World) (evs : list Event) : Prop :=
  trace (snd r) = trace w ++ evs /\
  (restart_calls evs <= 1)%nat /\
  (restart_calls evs = 1%nat ->
   restart_allowed env repo /\
   exists pre post remote,
     evs = pre ++ EvCmdRestart (Some (usec_at env (clock_reads w))) "update"
                  :: post /\
     In (EvPull remote) pre) /\
  (commit_diff env = [] ->
   restart_calls evs = 0%nat /\
   (pulled env evs -> fst r = Ok (Some no_updates_reply))) /\
  (touches_lock_file (commit_diff env) = true ->
   truthy (get_venv_path env) = false ->
   restart_calls evs = 0%nat /\
   (pulled env evs -> fst r = Ok (Some manual_update_reply))).

(** ** Further sample collaborators *)

(** [env] with another answer of the command runner. *)
Definition with_run_command (env : Env)
    (answer : list string -> Exn + (string * string * Z)) : Env :=
  {| uid := uid env; sys_executable := sys_executable env;
     orig_argv := orig_argv env; usec_at := usec_at env;
     format_duration_us := format_duration_us env;
     format_exception := format_exception env;
     ctx_respond := ctx_respond env; bot_stop := bot_stop env;
     get_messages := get_messages env; bot_respond := bot_respond env;
     meval := meval env; os_execv := os_execv env;
     have_git := have_git env; get_repo := get_repo env;
     repo_remote := repo_remote env;
     get_current_remote := get_current_remote env;
     remote_pull := remote_pull env; commit_diff := commit_diff env;
     get_venv_path := get_venv_path env; run_command := answer;
     pip_path := pip_path env |}.

(** [env] with another answer of [client.get_messages]. *)
Definition with_get_messages (env : Env)
    (answer : World -> value -> value -> Exn + Message) : Env :=
  {| uid := uid env; sys_executable := sys_executable env;
     orig_argv := orig_argv env; usec_at := usec_at env;
     format_duration_us := format_duration_us env;
     format_exception := format_exception env;
     ctx_respond := ctx_respond env; bot_stop := bot_stop env;
     get_messages := answer; bot_respond := bot_respond env;
     meval := meval env; os_execv := os_execv env;
     have_git := have_git env; get_repo := get_repo env;
     repo_remote := repo_remote env;
     get_current_remote := get_current_remote env;
     remote_pull := remote_pull env; commit_diff := commit_diff env;
     get_venv_path := get_venv_path env; run_command := run_command env;
     pip_path := pip_path env |}.

Definition plain_env : Env := sample_env run_return_42 [] None.

Definition shell_ctx : Context :=
  mkContext ["ls"; "-l"]%string "ls -l"%string (mkMessage 5 43 "/sh ls -l").

Definition exn_named (exc : string) : Exn := mkExn exc "" true [].

(** A formatter for exceptions without traceback. *)
Definition show_type (e : Exn) : string := exc_type e.

(** No line feed in the string. *)
Fixpoint one_line (s : string) : bool :=
  match s with
  | EmptyString => true
  | String c rest => negb (Ascii.eqb c (ascii_of_nat 10)) && one_line rest
  end.

(** A snippet that prints a line and then fails in its own code. *)
Definition run_print_then_raise : SnippetRun :=
  mkRun (mkStringIO ("step 1" +:+ nl) 7 false)
        (inl (mkExn "ZeroDivisionError" "division by zero" true
                [frame_in_module; frame_in_meval; frame_in_snippet])).

(** The time [cmd_restart] stores when called in world [w]:
    [restart_time or util.time.usec()]. *)
Definition stored_time (env : Env) (restart_time : option Z) (w : World) : Z :=
  match restart_time with
  | Some t => if t =? 0 then usec_at env (clock_reads w) else t
  | None => usec_at env (clock_reads w)
  end.

(** The world in which [cmd_restart] reaches the store, after a
    successful acknowledgement. *)
Definition before_store (restart_time : option Z) (reason : string)
    (w : World) : World :=
  let w1 := log_event (EvCtxRespond "Restarting bot...")
              (log_event (EvCmdRestart restart_time reason) w) in
  match restart_time with
  | Some t => if t =? 0 then tick w1 else w1
  | None => tick w1
  end.


(** The remote [cmd_update] pulls from: the one named in the command,
    or the one the current branch tracks. *)
Definition resolved_remote (env : Env) (ctx : Context) (remote : string)
  : Prop :=
  (input ctx <> ""%string /\ repo_remote env (input ctx) = inr remote) \/
  (input ctx = ""%string /\ get_current_remote env = Some remote).

(** The command line of the dependency reinstall. *)
Definition pip_install (env : Env) (repo : Repo) : list string :=
  [pip_path env (default ""%string (get_venv_path env)); "install"%string;
   working_tree_dir repo].

(** The progress message [cmd_update] sends before it pulls. *)
Definition pull_message (remote : string) : string :=
  "Pulling changes from `" +:+ remote +:+ "`...".

(** The world right after a pull that went through: the clock was read
    once, the progress message sent and the remote pulled. *)
Definition after_pull (remote : string) (w : World) : World :=
  log_event (EvPull remote)
    (log_event (EvCtxRespond (pull_message remote)) (tick w)).

(** The world after the dependency reinstall that follows such a pull. *)
Definition after_reinstall (env : Env) (repo : Repo) (remote : string)
    (w : World) : World :=
  log_event (EvRunCommand (pip_install env repo))
    (log_event (EvCtxRespond "Updating dependencies...") (after_pull remote w)).

Definition neofetch_output : string :=
  "user@host" +:+ nl +:+ "---------" +:+ nl +:+ "OS: Linux" +:+ nl +:+
  "Shell: sh" +:+ nl.

Definition older_record : document :=
  [("status_chat_id"%string, VInt 9); ("status_message_id"%string, VInt 7);
   ("time"%string, VInt 10); ("reason"%string, VStr "manual")].

Definition stored_older : gmap Z document :=
  {[ 777 := [("_id"%string, VInt 777);
             ("restart"%string, VList [VDict older_record])] ]}.

Definition record_without_message : document :=
  [("status_chat_id"%string, VInt 5); ("time"%string, VInt 1000);
   ("reason"%string, VStr "manual")].

Definition record_without_time : document :=
  [("status_chat_id"%string, VInt 5); ("status_message_id"%string, VInt 42);
   ("reason"%string, VStr "manual")].

Definition env_pip_fails : Env :=
  with_run_command
    (sample_env run_return_42 [lock_change] (Some "/srv/venv"%string))
    (fun _ => inr ("No matching distribution"%string, ""%string, 1)).

(** ** Strings *)

Lemma substring_whole (t : string) : substring 0 (String.length t) t = t.
Proof. induction t as [|c t IH]; simpl; [reflexivity | now rewrite IH]. Qed.

Lemma substring_after (s t : string) :
  substring (String.length s) (String.length t) (s +:+ t) = t.
Proof.
  induction s as [|c s IH]; simpl.
  - apply substring_whole.
  - exact IH.
Qed.

Lemma length_append (s t : string) :
  String.length (s +:+ t) = (String.length s + String.length t)%nat.
Proof. induction s as [|c s IH]; simpl; [reflexivity | now rewrite IH]. Qed.

Lemma endswith_append (s t : string) : endswith (s +:+ t) t = true.
Proof.
  unfold endswith. rewrite length_append.
  replace (String.length t <=? String.length s + String.length t)%nat
    with true by (symmetry; apply Nat.leb_le; lia).
  replace (String.length s + String.length t - String.length t)%nat
    with (String.length s) by lia.
  rewrite substring_after. apply String.eqb_refl.
Qed.

Lemma drop_last_append_nl (s : string) : drop_last (s +:+ nl) = s.
Proof.
  induction s as [|c s IH]; [reflexivity|].
  change (String c s +:+ nl) with (String c (s +:+ nl)).
  destruct s as [|c' s']; [reflexivity|].
  change (String c' s' +:+ nl) with (String c' (s' +:+ nl)) in *.
  simpl drop_last in *. now rewrite IH.
Qed.

Lemma strip_one_newline_append (s : string) : strip_one_newline (s +:+ nl) = s.
Proof.
  unfold strip_one_newline. rewrite endswith_append. apply drop_last_append_nl.
Qed.

Lemma append_cons (c : ascii) (a b : string) :
  String c a +:+ b = String c (a +:+ b).
Proof. reflexivity. Qed.

Lemma append_assoc_str (a b c : string) : (a +:+ b) +:+ c = a +:+ (b +:+ c).
Proof.
  induction a as [|x a IH]; [reflexivity|]. rewrite !append_cons.
  now rewrite IH.
Qed.

Lemma append_nil_r (a : string) : a +:+ "" = a.
Proof.
  induction a as [|x a IH]; [reflexivity|]. rewrite append_cons.
  now rewrite IH.
Qed.

Lemma str_take_all (v : string) : str_take (String.length v) v = v.
Proof. induction v as [|c v IH]; simpl; [reflexivity | now rewrite IH]. Qed.

Lemma str_drop_past (v : string) (k : nat) :
  str_drop (String.length v + k) v = ""%string.
Proof. induction v as [|c v IH]; simpl; [now destruct k | exact IH]. Qed.

Lemma sio_write_closed (b : StringIO) (s : string) :
  sio_closed (sio_write b s) = sio_closed b.
Proof. reflexivity. Qed.

(** Writing to a buffer positioned at its end appends. *)
Lemma sio_write_at_end (b : StringIO) (s : string) :
  sio_pos b = String.length (sio_value b) ->
  sio_value (sio_write b s) = sio_value b +:+ s.
Proof.
  intros Hpos. unfold sio_write. cbn [sio_value]. rewrite Hpos, Nat.sub_diag.
  cbn [nul_pad]. rewrite append_nil_r, str_take_all, str_drop_past.
  now rewrite append_nil_r.
Qed.

(** ** Running the monad *)

Ltac run_monad :=
  unfold bind, ret, raise, get, modify, lift in *; simpl in *.

(** ** The evaluation sandbox *)

(** The search loop either finds nothing in a list of frames none of
    which passes the test, or stops at the first frame that does. *)
Lemma first_snip_from_spec (tb : list Frame) : forall i : Z,
  0 <= i ->
  (first_snip_from i tb = -1 /\ Forall not_snippet tb) \/
  (exists pre f post,
      tb = pre ++ f :: post /\ Forall not_snippet pre /\
      involves_snippet f = true /\
      first_snip_from i tb = i + Z.of_nat (length pre)).
Proof.
  induction tb as [|frame rest IH]; intros i Hi; simpl.
  - left. split; [reflexivity | constructor].
  - destruct (involves_snippet frame) eqn:Hf.
    + right. exists [], frame, rest. simpl.
      repeat split; [constructor | assumption | lia].
    + destruct (IH (i + 1) ltac:(lia)) as [[Hnone Hall] | (pre & f & post & -> & Hpre & Hsnip & Hidx)].
      * left. split; [assumption | constructor; assumption].
      * right. exists (frame :: pre), f, post. simpl.
        repeat split; [constructor; assumption | assumption | lia].
Qed.

Lemma stripped_tb_none (tb : list Frame) :
  Forall not_snippet tb -> stripped_tb tb = None.
Proof.
  intros Hall. unfold stripped_tb, first_snip_idx.
  destruct (first_snip_from_spec tb 0 ltac:(lia))
    as [[-> _] | (pre & f & post & -> & _ & Hsnip & _)]; [reflexivity|].
  apply Forall_app in Hall as [_ Hall]. inversion Hall as [|? ? Hf _]; subst.
  unfold not_snippet in Hf. congruence.
Qed.

Lemma stripped_tb_some (tb frames : list Frame) :
  stripped_tb tb = Some frames ->
  exists pre f post,
    tb = pre ++ f :: post /\ frames = f :: post /\
    involves_snippet f = true /\ Forall not_snippet pre.
Proof.
  unfold stripped_tb, first_snip_idx.
  destruct (first_snip_from_spec tb 0 ltac:(lia))
    as [[-> _] | (pre & f & post & -> & Hpre & Hsnip & ->)]; [discriminate|].
  rewrite Z.add_0_l.
  destruct (Z.eqb_spec (Z.of_nat (length pre)) (-1)) as [E|_]; [lia|].
  intros [= Hfr]. subst frames. exists pre, f, post.
  repeat split; try assumption.
  unfold slice_from.
  destruct (Z.ltb_spec (Z.of_nat (length pre)) 0) as [E|_]; [lia|].
  rewrite Nat2Z.id. now rewrite drop_app_length.
Qed.

(** [cmd_eval] up to the call of [_eval]: with a command and a snippet
    in the message, the handler's outcome is decided by [_eval] run
    after the first clock reading and by what the buffer takes. *)
Lemma cmd_eval_unfold (env : Env) (ctx : Context) (w : World) (code : string) :
  cmd ctx <> [] ->
  split_space_1_snd (text (msg ctx)) = Some code ->
  fst (cmd_eval env ctx w) =
  match _eval env code (tick w) with
  | (Ok r, w') =>
      match collect_result (fst r) (snd (snd r)) with
      | inl e => Raise e
      | inr out_buf =>
          match getvalue out_buf with
          | inl e => Raise e
          | inr out =>
              Ok (eval_report (fst (snd r)) code (strip_one_newline out)
                    (format_duration_us env
                       (usec_at env (clock_reads w')
                        - usec_at env (clock_reads w))))
          end
      end
  | (Raise e, _) => Raise e
  | (Replaced p a, _) => Replaced p a
  end.
Proof.
  intros Hcmd Hcode. unfold cmd_eval. rewrite Hcode.
  destruct (cmd ctx) as [|c cs]; [congruence|].
  unfold usec. run_monad.
  destruct (_eval env code (tick w)) as [[r | e | p a] w']; try reflexivity.
  simpl. destruct (collect_result _ _) as [e | out_buf]; simpl; [reflexivity|].
  destruct (getvalue out_buf); reflexivity.
Qed.

Lemma eval_returns (env : Env) (code : string) (w : World) (v : pyval) :
  sr_outcome (meval env w code) = inr v ->
  _eval env code w =
  (Ok (sr_buffer (meval env w code), (""%string, v)),
   log_event (EvMeval code) w).
Proof. intros H. unfold _eval. now rewrite H. Qed.

(** A traceback with a frame that passes the test splits at the first
    such frame. *)
Lemma first_passing_frame (tb : list Frame) (g : Frame) :
  In g tb -> involves_snippet g = true ->
  exists pre f post,
    tb = pre ++ f :: post /\ Forall not_snippet pre /\
    involves_snippet f = true.
Proof.
  induction tb as [|x rest IH]; intros Hin Hg; [contradiction|].
  destruct (involves_snippet x) eqn:Hx.
  - exists [], x, rest. repeat split; [constructor | assumption].
  - destruct Hin as [-> | Hin]; [congruence|].
    destruct (IH Hin Hg) as (pre & f & post & -> & Hpre & Hf).
    exists (x :: pre), f, post. repeat split; [constructor|]; assumption.
Qed.

Lemma first_snip_from_first (pre post : list Frame) (f : Frame) :
  Forall not_snippet pre -> involves_snippet f = true ->
  forall i, first_snip_from i (pre ++ f :: post) = i + Z.of_nat (length pre).
Proof.
  intros Hpre Hf. induction Hpre as [|x pre Hx _ IH]; intros i; simpl.
  - rewrite Hf. lia.
  - unfold not_snippet in Hx. rewrite Hx, IH. lia.
Qed.

(** The filter keeps the frames from the first passing one on. *)
Lemma stripped_tb_first (pre post : list Frame) (f : Frame) :
  Forall not_snippet pre -> involves_snippet f = true ->
  stripped_tb (pre ++ f :: post) = Some (f :: post).
Proof.
  intros Hpre Hf. unfold stripped_tb, first_snip_idx.
  rewrite (first_snip_from_first pre post f Hpre Hf), Z.add_0_l.
  destruct (Z.eqb_spec (Z.of_nat (length pre)) (-1)) as [E|_]; [lia|].
  unfold slice_from.
  destruct (Z.ltb_spec (Z.of_nat (length pre)) 0) as [E|_]; [lia|].
  rewrite Nat2Z.id. now rewrite drop_app_length.
Qed.

(** [cmd_eval] for a snippet that returns and leaves the buffer open. *)
Lemma cmd_eval_of_return (env : Env) (ctx : Context) (w : World)
    (code : string) (b : StringIO) (v : pyval) :
  cmd ctx <> [] ->
  split_space_1_snd (text (msg ctx)) = Some code ->
  meval env (tick w) code = mkRun b (inr v) ->
  sio_closed b = false ->
  fst (cmd_eval env ctx w) =
    Ok (eval_report "" code
          (strip_one_newline
             (sio_value (if writes_result (sio_value b) v
                         then sio_write b (py_str v +:+ nl) else b)))
          (format_duration_us env
             (usec_at env (S (clock_reads w)) - usec_at env (clock_reads w)))).
Proof.
  intros Hcmd Hcode Hrun Hopen.
  rewrite (cmd_eval_unfold env ctx w code Hcmd Hcode).
  rewrite (eval_returns env code (tick w) v (f_equal sr_outcome Hrun)).
  rewrite Hrun. cbn [fst snd sr_buffer].
  unfold collect_result, print_to, py_print, getvalue. rewrite Hopen.
  cbn [map String.concat].
  destruct (writes_result (sio_value b) v);
    rewrite ?sio_write_closed, Hopen; reflexivity.
Qed.

(** [cmd_eval] for a snippet that raises in its own code and leaves the
    buffer open. *)
Lemma cmd_eval_of_error (env : Env) (ctx : Context) (w : World)
    (code : string) (b : StringIO) (e : Exn) (pre post : list Frame)
    (f : Frame) :
  cmd ctx <> [] ->
  split_space_1_snd (text (msg ctx)) = Some code ->
  meval env (tick w) code = mkRun b (inl e) ->
  is_Exception e = true ->
  exc_tb e = pre ++ f :: post ->
  Forall not_snippet pre ->
  involves_snippet f = true ->
  sio_closed b = false ->
  fst (cmd_eval env ctx w) =
    Ok (eval_report error_prefix code
          (strip_one_newline
             (sio_value
                (sio_write b (format_exception env e (f :: post) +:+ nl))))
          (format_duration_us env
             (usec_at env (S (clock_reads w)) - usec_at env (clock_reads w)))).
Proof.
  intros Hcmd Hcode Hrun Hexc Htb Hpre Hf Hopen.
  rewrite (cmd_eval_unfold env ctx w code Hcmd Hcode).
  unfold _eval. rewrite Hrun. cbn [sr_outcome sr_buffer].
  rewrite Hexc, Htb, (stripped_tb_first pre post f Hpre Hf).
  cbn [fst snd].
  unfold collect_result, print_to, py_print, getvalue, writes_result.
  rewrite Hopen. cbn [is_not_None map String.concat py_str].
  rewrite orb_true_r, sio_write_closed, Hopen. reflexivity.
Qed.

(** C4, as the claim states it, fails: the frames handed to the
    formatter are not all frames of the snippet.  A snippet that calls a
    framework function which raises leaves that function's frame after
    its own, and the frame is kept. *)
Lemma eval_traceback_keeps_framework_frame :
  ~ (forall (e : Exn) (frames : list Frame),
        is_Exception e = true ->
        stripped_tb (exc_tb e) = Some frames ->
        Forall (fun f => involves_snippet f = true) frames).
Proof.
  intros H.
  pose proof (H (mkExn "ValueError" "no repo" true
                   [frame_in_module; frame_in_meval; frame_in_snippet;
                    frame_in_util])
                [frame_in_snippet; frame_in_util] eq_refl eq_refl) as Hall.
  inversion Hall as [|? ? _ Hrest]; subst.
  inversion Hrest as [|? ? Hutil _]; subst.
  vm_compute in Hutil. discriminate.
Qed.

(** The same run seen from the operator's side: the report of [cmd_eval]
    lists the framework file after the snippet's. *)
Example eval_report_shows_framework_frame :
  fst (cmd_eval (sample_env run_raising_in_util [] None)
         (eval_ctx "/eval get_repo()") (fresh_world ∅)) =
  Ok (eval_report error_prefix "get_repo()"
        ("<string>" +:+ nl +:+ "caligo/util/git.py" +:+ nl +:+ "ValueError")
        "10 us").
Proof. vm_compute. reflexivity. Qed.

(** C4, amended: when a snippet raises an [Exception] and some frame of
    its traceback has the file name "<string>" or one ending in
    "ast.py", the traceback shown is formatted from the frames from the
    first such frame on: that frame comes first, every frame before it
    is dropped and none of the dropped ones passes the test; the frames
    after it are kept whatever their file. *)
Theorem eval_traceback_from_first_snippet_frame
    (env : Env) (code : string) (w : World) (e : Exn) (g : Frame) :
  sr_outcome (meval env w code) = inl e ->
  is_Exception e = true ->
  In g (exc_tb e) ->
  involves_snippet g = true ->
  exists pre f post,
    exc_tb e = pre ++ f :: post /\
    Forall not_snippet pre /\
    involves_snippet f = true /\
    fst (_eval env code w) =
      Ok (sr_buffer (meval env w code),
          (error_prefix, PyStr (format_exception env e (f :: post)))).
Proof.
  intros Hrun Hexc Hin Hg.
  destruct (first_passing_frame (exc_tb e) g Hin Hg)
    as (pre & f & post & Htb & Hpre & Hf).
  exists pre, f, post. repeat split; try assumption.
  unfold _eval. rewrite Hrun, Hexc, Htb.
  now rewrite (stripped_tb_first pre post f Hpre Hf).
Qed.

Lemma eval_traceback_from_first_snippet_frame_witness :
  exists pre f post,
    [frame_in_module; frame_in_meval; frame_in_snippet; frame_in_util]
      = pre ++ f :: post /\
    Forall not_snippet pre /\
    involves_snippet f = true /\
    fst (_eval (sample_env run_raising_in_util [] None) "get_repo()"
           (fresh_world ∅)) =
      Ok (new_StringIO,
          (error_prefix,
           PyStr (list_files (mkExn "ValueError" "no repo" true
                                [frame_in_module; frame_in_meval;
                                 frame_in_snippet; frame_in_util])
                    (f :: post)))).
Proof.
  exact (eval_traceback_from_first_snippet_frame
           (sample_env run_raising_in_util [] None) "get_repo()"
           (fresh_world ∅) _ frame_in_snippet
           eq_refl eq_refl (or_intror (or_intror (or_introl eq_refl))) eq_refl).
Defined.

(** C5, as the claim states it, fails: with an empty buffer and a
    result that is [None] the result is written all the same. *)
Lemma eval_writes_None_on_empty_buffer :
  ~ (forall (out_buf : string) (result : pyval),
        writes_result out_buf result = true <->
        (out_buf = ""%string /\ result <> PyNone)).
Proof.
  intros H. destruct (H ""%string PyNone) as [Hwrite _].
  destruct (Hwrite eq_refl) as [_ Hne]. now apply Hne.
Qed.

(** The guard and the write of lines 207-209 on an open buffer. *)
Lemma collect_result_open (b : StringIO) (v : pyval) :
  sio_closed b = false ->
  collect_result b v =
    inr (if writes_result (sio_value b) v
         then sio_write b (py_str v +:+ nl) else b).
Proof.
  intros Hopen. unfold collect_result, print_to, py_print, getvalue.
  rewrite Hopen. cbn [map String.concat].
  now destruct (writes_result (sio_value b) v).
Qed.

(** C5, amended: after the snippet finishes the result is written to the
    buffer, followed by a newline, exactly when the buffer captured no
    output or the result is not [None]; when the buffer holds output and
    the result is [None], nothing further is written.  Stated on
    [cmd_eval], for a snippet that returns and leaves the buffer open:
    in the first case the buffer the report is read off is the one the
    snippet left with the result written in at the stream position, in
    the second it is the buffer as the snippet left it. *)
Theorem eval_writes_result_iff (env : Env) (ctx : Context) (w : World)
    (code : string) (b : StringIO) (v : pyval) :
  cmd ctx <> [] ->
  split_space_1_snd (text (msg ctx)) = Some code ->
  meval env (tick w) code = mkRun b (inr v) ->
  sio_closed b = false ->
  (sio_value b = ""%string \/ v <> PyNone ->
   collect_result b v = inr (sio_write b (py_str v +:+ nl)) /\
   fst (cmd_eval env ctx w) =
     Ok (eval_report "" code
           (strip_one_newline (sio_value (sio_write b (py_str v +:+ nl))))
           (format_duration_us env
              (usec_at env (S (clock_reads w)) - usec_at env (clock_reads w)))))
  /\
  (sio_value b <> ""%string -> v = PyNone ->
   collect_result b v = inr b /\
   fst (cmd_eval env ctx w) =
     Ok (eval_report "" code (strip_one_newline (sio_value b))
           (format_duration_us env
              (usec_at env (S (clock_reads w)) - usec_at env (clock_reads w))))).
Proof.
  intros Hcmd Hcode Hrun Hopen.
  rewrite (cmd_eval_of_return env ctx w code b v Hcmd Hcode Hrun Hopen),
    (collect_result_open b v Hopen).
  unfold writes_result. split.
  - intros [-> | Hv]; [split; reflexivity|].
    destruct v; try contradiction; rewrite orb_true_r; split; reflexivity.
  - intros Hne ->. destruct (String.eqb_spec (sio_value b) "");
      [contradiction | split; reflexivity].
Qed.

Lemma eval_writes_result_iff_witness :
  (""%string = ""%string \/ PyNone <> PyNone ->
   collect_result new_StringIO PyNone =
     inr (sio_write new_StringIO (py_str PyNone +:+ nl)) /\
   fst (cmd_eval (sample_env run_return_none [] None) (eval_ctx "/eval pass")
          (fresh_world ∅)) =
     Ok (eval_report "" "pass" "None" "10 us"))
  /\
  (""%string <> ""%string -> PyNone = PyNone ->
   collect_result new_StringIO PyNone = inr new_StringIO /\
   fst (cmd_eval (sample_env run_return_none [] None) (eval_ctx "/eval pass")
          (fresh_world ∅)) =
     Ok (eval_report "" "pass" "" "10 us")).
Proof.
  exact (eval_writes_result_iff (sample_env run_return_none [] None)
           (eval_ctx "/eval pass") (fresh_world ∅) "pass" new_StringIO PyNone
           ltac:(discriminate) eq_refl eq_refl eq_refl).
Defined.

(** Both sides of the guard on runs: a snippet that printed and returns
    nothing leaves the buffer alone; one that printed and returns 42
    gets the result written after what it printed. *)
Example eval_guard_runs :
  collect_result (mkStringIO ("hello" +:+ nl) 6 false) PyNone =
    inr (mkStringIO ("hello" +:+ nl) 6 false) /\
  collect_result (mkStringIO ("x" +:+ nl) 2 false) (PyInt 42) =
    inr (mkStringIO ("x" +:+ nl +:+ "42" +:+ nl) 5 false) /\
  collect_result new_StringIO PyNone =
    inr (mkStringIO ("None" +:+ nl) 5 false).
Proof. vm_compute. repeat split. Qed.

(** C6: exactly one trailing newline is taken off the final contents of
    the buffer before the report is built.  Whatever a snippet left in
    the buffer, when those contents end in a newline the report shows
    them without that one newline (so contents ending in two newlines
    keep one), and when they do not the report shows them as they are;
    when the result is written to an empty buffer the report shows
    [str(result)].  A snippet that prints "hello" and returns nothing is
    reported with body "hello"; one that prints nothing and returns 42
    with body "42". *)
Theorem eval_strips_one_newline :
  (forall (env : Env) (ctx : Context) (w : World) (code : string)
          (b : StringIO) (t : string),
      cmd ctx <> [] ->
      split_space_1_snd (text (msg ctx)) = Some code ->
      meval env (tick w) code = mkRun b (inr PyNone) ->
      sio_closed b = false ->
      sio_value b = t +:+ nl ->
      fst (cmd_eval env ctx w) =
        Ok (eval_report "" code t
              (format_duration_us env
                 (usec_at env (S (clock_reads w))
                  - usec_at env (clock_reads w))))) /\
  (forall (env : Env) (ctx : Context) (w : World) (code : string)
          (b : StringIO),
      cmd ctx <> [] ->
      split_space_1_snd (text (msg ctx)) = Some code ->
      meval env (tick w) code = mkRun b (inr PyNone) ->
      sio_closed b = false ->
      sio_value b <> ""%string ->
      endswith (sio_value b) nl = false ->
      fst (cmd_eval env ctx w) =
        Ok (eval_report "" code (sio_value b)
              (format_duration_us env
                 (usec_at env (S (clock_reads w))
                  - usec_at env (clock_reads w))))) /\
  (forall (env : Env) (ctx : Context) (w : World) (code : string) (v : pyval),
      cmd ctx <> [] ->
      split_space_1_snd (text (msg ctx)) = Some code ->
      meval env (tick w) code = mkRun new_StringIO (inr v) ->
      fst (cmd_eval env ctx w) =
        Ok (eval_report "" code (py_str v)
              (format_duration_us env
                 (usec_at env (S (clock_reads w))
                  - usec_at env (clock_reads w))))) /\
  (forall (env : Env) (ctx : Context) (w : World) (code : string)
          (b : StringIO),
      cmd ctx <> [] ->
      split_space_1_snd (text (msg ctx)) = Some code ->
      _print [PyStr "hello"] new_StringIO = inr b ->
      meval env (tick w) code = mkRun b (inr PyNone) ->
      fst (cmd_eval env ctx w) =
        Ok (eval_report "" code "hello"
              (format_duration_us env
                 (usec_at env (S (clock_reads w))
                  - usec_at env (clock_reads w))))) /\
  (forall (env : Env) (ctx : Context) (w : World) (code : string),
      cmd ctx <> [] ->
      split_space_1_snd (text (msg ctx)) = Some code ->
      meval env (tick w) code = mkRun new_StringIO (inr (PyInt 42)) ->
      fst (cmd_eval env ctx w) =
        Ok (eval_report "" code "42"
              (format_duration_us env
                 (usec_at env (S (clock_reads w))
                  - usec_at env (clock_reads w))))).
Proof.
  assert (Hnone : forall (env : Env) (ctx : Context) (w : World)
                         (code : string) (b : StringIO),
             cmd ctx <> [] ->
             split_space_1_snd (text (msg ctx)) = Some code ->
             meval env (tick w) code = mkRun b (inr PyNone) ->
             sio_closed b = false ->
             sio_value b <> ""%string ->
             fst (cmd_eval env ctx w) =
               Ok (eval_report "" code (strip_one_newline (sio_value b))
                     (format_duration_us env
                        (usec_at env (S (clock_reads w))
                         - usec_at env (clock_reads w))))).
  { intros env ctx w code b Hcmd Hcode Hrun Hopen Hne.
    rewrite (cmd_eval_of_return env ctx w code b PyNone Hcmd Hcode Hrun Hopen).
    unfold writes_result.
    destruct (String.eqb_spec (sio_value b) ""); [contradiction | reflexivity]. }
  assert (Hfresh : forall (env : Env) (ctx : Context) (w : World)
                          (code : string) (v : pyval),
             cmd ctx <> [] ->
             split_space_1_snd (text (msg ctx)) = Some code ->
             meval env (tick w) code = mkRun new_StringIO (inr v) ->
             fst (cmd_eval env ctx w) =
               Ok (eval_report "" code (py_str v)
                     (format_duration_us env
                        (usec_at env (S (clock_reads w))
                         - usec_at env (clock_reads w))))).
  { intros env ctx w code v Hcmd Hcode Hrun.
    rewrite (cmd_eval_of_return env ctx w code new_StringIO v Hcmd Hcode Hrun
               eq_refl).
    change (writes_result (sio_value new_StringIO) v) with true.
    cbv iota. rewrite (sio_write_at_end new_StringIO _ eq_refl).
    change (sio_value new_StringIO +:+ py_str v +:+ nl) with (py_str v +:+ nl).
    now rewrite strip_one_newline_append. }
  split; [|split; [|split; [|split]]].
  - intros env ctx w code b t Hcmd Hcode Hrun Hopen Hval.
    rewrite (Hnone env ctx w code b Hcmd Hcode Hrun Hopen).
    + now rewrite Hval, strip_one_newline_append.
    + rewrite Hval. destruct t; discriminate.
  - intros env ctx w code b Hcmd Hcode Hrun Hopen Hne Hend.
    rewrite (Hnone env ctx w code b Hcmd Hcode Hrun Hopen Hne).
    unfold strip_one_newline. now rewrite Hend.
  - exact Hfresh.
  - intros env ctx w code b Hcmd Hcode Hprint Hrun.
    injection Hprint as <-.
    exact (Hnone env ctx w code _ Hcmd Hcode Hrun eq_refl ltac:(discriminate)).
  - intros env ctx w code. apply Hfresh.
Qed.

Lemma eval_strips_one_newline_witness :
  fst (cmd_eval (sample_env run_two_newlines [] None)
         (eval_ctx "/eval print('a\n')") (fresh_world ∅)) =
    Ok (eval_report "" "print('a\n')" ("a" +:+ nl) "10 us") /\
  fst (cmd_eval (sample_env run_print_hello [] None)
         (eval_ctx "/eval print('hello')") (fresh_world ∅)) =
    Ok (eval_report "" "print('hello')" "hello" "10 us") /\
  fst (cmd_eval (sample_env run_return_42 [] None)
         (eval_ctx "/eval return 42") (fresh_world ∅)) =
    Ok (eval_report "" "return 42" "42" "10 us").
Proof.
  destruct eval_strips_one_newline as (Hone & _ & _ & Hhello & H42).
  split; [|split].
  - exact (Hone (sample_env run_two_newlines [] None)
             (eval_ctx "/eval print('a\n')") (fresh_world ∅)
             "print('a\n')"%string _ ("a" +:+ nl)
             ltac:(discriminate) eq_refl eq_refl eq_refl eq_refl).
  - exact (Hhello (sample_env run_print_hello [] None)
             (eval_ctx "/eval print('hello')") (fresh_world ∅)
             "print('hello')"%string _ ltac:(discriminate) eq_refl eq_refl
             eq_refl).
  - exact (H42 (sample_env run_return_42 [] None)
             (eval_ctx "/eval return 42") (fresh_world ∅)
             "return 42"%string ltac:(discriminate) eq_refl eq_refl).
Defined.

(** C7, as the claim states it, fails: an exception none of whose frames
    comes from the snippet's source "<string>" is not always raised
    again.  A snippet that does not parse fails inside [ast.parse]; the
    frame in "ast.py" passes the test of the loop and the error is
    formatted into the report. *)
Lemma eval_formats_error_raised_in_ast :
  ~ (forall (env : Env) (ctx : Context) (w : World) (code : string) (e : Exn),
        cmd ctx <> [] ->
        split_space_1_snd (text (msg ctx)) = Some code ->
        sr_outcome (meval env (tick w) code) = inl e ->
        Forall (fun f => filename f <> "<string>"%string) (exc_tb e) ->
        fst (cmd_eval env ctx w) = Raise e).
Proof.
  intros H.
  pose proof (H (sample_env run_syntax_error [] None)
                (eval_ctx "/eval return (") (fresh_world ∅)
                "return ("%string _ ltac:(discriminate) eq_refl eq_refl) as Hraise.
  assert (Hframes : Forall (fun f => filename f <> "<string>"%string)
                      [frame_in_module; frame_in_meval; frame_in_ast])
    by (repeat constructor; discriminate).
  specialize (Hraise Hframes). vm_compute in Hraise. discriminate.
Qed.

(** C7, amended: an exception raised while the snippet runs, none of
    whose traceback frames has the file name "<string>" or one ending in
    "ast.py", leaves [_eval] and [cmd_eval] as it is: it is raised
    again and no report is built. *)
Theorem eval_reraises_foreign_exception
    (env : Env) (ctx : Context) (w : World) (code : string) (e : Exn) :
  cmd ctx <> [] ->
  split_space_1_snd (text (msg ctx)) = Some code ->
  sr_outcome (meval env (tick w) code) = inl e ->
  Forall not_snippet (exc_tb e) ->
  fst (_eval env code (tick w)) = Raise e /\
  fst (cmd_eval env ctx w) = Raise e.
Proof.
  intros Hcmd Hcode Hrun Hall.
  assert (Heval : fst (_eval env code (tick w)) = Raise e).
  { unfold _eval. rewrite Hrun, (stripped_tb_none _ Hall).
    now destruct (is_Exception e). }
  split; [exact Heval|].
  rewrite (cmd_eval_unfold env ctx w code Hcmd Hcode).
  destruct (_eval env code (tick w)) as [[r | e' | p a] w']; simpl in Heval;
    congruence.
Qed.

Lemma eval_reraises_foreign_exception_witness :
  fst (_eval (sample_env run_sandbox_failure [] None) "1 + 1"
         (tick (fresh_world ∅))) =
    Raise (mkExn "RuntimeError" "meval broke" true
             [frame_in_module; frame_in_meval]) /\
  fst (cmd_eval (sample_env run_sandbox_failure [] None)
         (eval_ctx "/eval 1 + 1") (fresh_world ∅)) =
    Raise (mkExn "RuntimeError" "meval broke" true
             [frame_in_module; frame_in_meval]).
Proof.
  apply (eval_reraises_foreign_exception
           (sample_env run_sandbox_failure [] None)
           (eval_ctx "/eval 1 + 1") (fresh_world ∅) "1 + 1"%string).
  - discriminate.
  - reflexivity.
  - reflexivity.
  - repeat constructor.
Defined.

(** ** The restart coordinator *)

(** What [on_start] reads back from the record [cmd_restart] wrote: the
    three fields it asks for under the name they were written with come
    back; the reason, asked for as "restart_reason", does not. *)
Lemma restart_record_read_back (resp_msg : Message) (time : Z) (reason : string) :
  method_get (restart_record resp_msg time reason) "time" = inr (VInt time) /\
  method_get (restart_record resp_msg time reason) "status_chat_id"
    = inr (VInt (chat_id resp_msg)) /\
  method_get (restart_record resp_msg time reason) "status_message_id"
    = inr (VInt (message_id resp_msg)) /\
  method_get (restart_record resp_msg time reason) "restart_reason" = inr VNone /\
  method_get (restart_record resp_msg time reason) "reason" = inr (VStr reason).
Proof. repeat split. Qed.

(** With a usable first record, [on_start] looks the document up,
    deletes it, and only then does anything else; the document is gone
    however the rest of the handler ends. *)
Lemma on_start_consumes (env : Env) (time_us : Z) (w : World)
    (doc rec : document) (rest : list value) :
  db w !! uid env = Some doc ->
  dict_lookup "restart" doc = Some (VList (VDict rec :: rest)) ->
  exists evs,
    trace (snd (on_start env time_us w)) =
      trace w ++ EvDbFindOne (uid env) :: EvDbDeleteOne (uid env) :: evs /\
    db (snd (on_start env time_us w)) = delete (uid env) (db w).
Proof.
  intros Hdoc Hrec.
  unfold on_start, db_find_one, db_delete_one, usec, log_info, call.
  run_monad. rewrite Hdoc. unfold dict_get. rewrite Hrec. simpl.
  destruct (is_None _ || is_None _); simpl;
    [rewrite <- app_assoc; eexists; split; reflexivity|].
  destruct (int_sub _ _) as [e | delta]; run_monad;
    [rewrite <- app_assoc; eexists; split; reflexivity|].
  destruct (get_messages _ _ _ _) as [e | status_msg]; simpl;
    [rewrite <- !app_assoc; eexists; split; reflexivity|].
  destruct (bot_respond _ _ _ _) as [e | sent]; simpl;
    rewrite <- !app_assoc; eexists; split; reflexivity.
Qed.

(** Without a document [on_start] only looks it up. *)
Lemma on_start_no_document (env : Env) (time_us : Z) (w : World) :
  db w !! uid env = None ->
  on_start env time_us w = (Ok tt, log_event (EvDbFindOne (uid env)) w).
Proof.
  intros Hnone. unfold on_start, db_find_one. run_monad. now rewrite Hnone.
Qed.

(** C3: when the document of the bot's identity holds a restart record,
    [on_start] deletes the whole document right after reading it and
    before it fetches or edits any message, whatever happens to the
    fetch and the edit; a second run then finds no document and does
    nothing but look. *)
Theorem on_start_deletes_before_edit (env : Env) (time_us : Z) (w : World)
    (doc rec : document) (rest : list value) :
  db w !! uid env = Some doc ->
  dict_lookup "restart" doc = Some (VList (VDict rec :: rest)) ->
  (exists evs,
      trace (snd (on_start env time_us w)) =
        trace w ++ EvDbFindOne (uid env) :: EvDbDeleteOne (uid env) :: evs) /\
  db (snd (on_start env time_us w)) = delete (uid env) (db w) /\
  db (snd (on_start env time_us w)) !! uid env = None /\
  forall (time_us' : Z) (w2 : World),
    db w2 = db (snd (on_start env time_us w)) ->
    on_start env time_us' w2 = (Ok tt, log_event (EvDbFindOne (uid env)) w2).
Proof.
  intros Hdoc Hrec.
  destruct (on_start_consumes env time_us w doc rec rest Hdoc Hrec)
    as (evs & Htrace & Hdb).
  split; [now exists evs|]. split; [exact Hdb|].
  assert (Hgone : db (snd (on_start env time_us w)) !! uid env = None)
    by (rewrite Hdb; apply lookup_delete_eq).
  split; [exact Hgone|].
  intros time_us' w2 Hw2. apply on_start_no_document. now rewrite Hw2.
Qed.

Lemma on_start_deletes_before_edit_witness :
  (exists evs,
      trace (snd (on_start (sample_env run_return_42 [] None) 1500
                    (resumed_world stored_update))) =
        trace (resumed_world stored_update)
        ++ EvDbFindOne 777 :: EvDbDeleteOne 777 :: evs) /\
  db (snd (on_start (sample_env run_return_42 [] None) 1500
             (resumed_world stored_update)))
    = delete 777 (db (resumed_world stored_update)) /\
  db (snd (on_start (sample_env run_return_42 [] None) 1500
             (resumed_world stored_update))) !! 777 = None /\
  forall (time_us' : Z) (w2 : World),
    db w2 = db (snd (on_start (sample_env run_return_42 [] None) 1500
                       (resumed_world stored_update))) ->
    on_start (sample_env run_return_42 [] None) time_us' w2
      = (Ok tt, log_event (EvDbFindOne 777) w2).
Proof.
  apply (on_start_deletes_before_edit (sample_env run_return_42 [] None) 1500
           (resumed_world stored_update)
           [("_id"%string, VInt 777); ("restart"%string, VList [update_record])]
           [("status_chat_id"%string, VInt 5);
            ("status_message_id"%string, VInt 42);
            ("time"%string, VInt 1000);
            ("reason"%string, VStr "update")] []).
  - vm_compute. reflexivity.
  - reflexivity.
Defined.

(** The run of the witness, event by event: look-up, deletion, and only
    then the fetch and the edit. *)
Example resume_trace :
  trace (snd (on_start (sample_env run_return_42 [] None) 1500
                (resumed_world stored_update))) =
  [EvDbFindOne 777; EvDbDeleteOne 777;
   EvLogInfo "Bot restarted in 500 us";
   EvGetMessages (VInt 5) (VInt 42);
   EvBotRespond sample_message "Bot restarted in 500 us."].
Proof. vm_compute. reflexivity. Qed.

(** [cmd_restart] on a store that has no document for the bot leaves
    exactly one record there, made of the acknowledgement's chat and
    message, the time and the reason. *)
Lemma cmd_restart_persists (env : Env) (ctx : Context) (w : World)
    (restart_time : option Z) (reason : string) (resp_msg : Message) :
  db w !! uid env = None ->
  ctx_respond env (log_event (EvCmdRestart restart_time reason) w) ctx
    "Restarting bot..." = inr resp_msg ->
  exists time,
    db (snd (cmd_restart env ctx restart_time reason w)) =
      <[uid env := [("_id"%string, VInt (uid env));
                   ("restart"%string,
                    VList [restart_record resp_msg time reason])]]> (db w) /\
    restart_pending (snd (cmd_restart env ctx restart_time reason w)) = true.
Proof.
  intros Hnone Hresp.
  unfold cmd_restart, call, call_, log_info, db_update_one_add_to_set,
    restart_time_or_now, usec.
  run_monad. rewrite Hresp. simpl.
  destruct restart_time as [t|]; [destruct (t =? 0)|]; simpl;
    unfold add_to_set; simpl; rewrite Hnone; simpl;
    destruct (bot_stop env _); simpl; eexists; split; reflexivity.
Qed.

(** C1: what the code does with the reason.  Whatever reason the record
    was written with, "update" included, [on_start] reads the reason
    back as [None] and the report on resume is "Bot restarted in
    {duration}.", without the qualifier. *)
Theorem resume_report_ignores_reason (env : Env) (time_us : Z) (w : World)
    (resp_msg status_msg : Message) (time : Z) (reason : string) :
  db w !! uid env =
    Some [("_id"%string, VInt (uid env));
          ("restart"%string, VList [restart_record resp_msg time reason])] ->
  (forall w', get_messages env w' (VInt (chat_id resp_msg))
                (VInt (message_id resp_msg)) = inr status_msg) ->
  method_get (restart_record resp_msg time reason) "restart_reason" = inr VNone /\
  trace (snd (on_start env time_us w)) =
    trace w ++
    [EvDbFindOne (uid env); EvDbDeleteOne (uid env);
     EvLogInfo ("Bot " +:+ "" +:+ "restarted in " +:+
                format_duration_us env (usec_at env (clock_reads w) - time));
     EvGetMessages (VInt (chat_id resp_msg)) (VInt (message_id resp_msg));
     EvBotRespond status_msg
       ("Bot " +:+ "" +:+ "restarted in " +:+
        format_duration_us env (usec_at env (clock_reads w) - time) +:+ ".")].
Proof.
  intros Hdoc Hfetch. split; [reflexivity|].
  unfold on_start, db_find_one, db_delete_one, usec, log_info, call.
  run_monad. unfold document in *. rewrite Hdoc. simpl.
  rewrite Hfetch. simpl.
  destruct (bot_respond _ _ _ _); simpl; now rewrite <- !app_assoc.
Qed.

Lemma resume_report_ignores_reason_witness :
  method_get update_record "restart_reason" = inr VNone /\
  trace (snd (on_start (sample_env run_return_42 [] None) 1500
                (resumed_world stored_update))) =
    [EvDbFindOne 777; EvDbDeleteOne 777;
     EvLogInfo "Bot restarted in 500 us";
     EvGetMessages (VInt 5) (VInt 42);
     EvBotRespond sample_message "Bot restarted in 500 us."].
Proof.
  apply (resume_report_ignores_reason (sample_env run_return_42 [] None) 1500
           (resumed_world stored_update) sample_message sample_message 1000
           "update").
  - vm_compute. reflexivity.
  - intros w'. reflexivity.
Defined.

(** *** Documents that cannot be consumed *)

Lemma on_start_no_record (env : Env) (time_us : Z) (w : World) (doc : document) :
  db w !! uid env = Some doc ->
  dict_lookup "restart" doc = None \/ dict_lookup "restart" doc = Some (VList []) ->
  on_start env time_us w =
    (Raise (no_record_error doc), log_event (EvDbFindOne (uid env)) w).
Proof.
  intros Hdoc Hrec. unfold on_start, db_find_one, no_record_error.
  run_monad. rewrite Hdoc. unfold dict_get.
  destruct Hrec as [-> | ->]; reflexivity.
Qed.

(** C9: when the document of the bot's identity has no "restart" field,
    or an empty list there, [on_start] raises at the subscript
    ([TypeError] on [None], [IndexError] on the empty list) having done
    nothing but the look-up: no deletion is issued, the collection is
    unchanged, and so every later boot fails in the same way. *)
Theorem on_start_fails_without_record (env : Env) (coll : gmap Z document)
    (doc : document) :
  coll !! uid env = Some doc ->
  dict_lookup "restart" doc = None \/ dict_lookup "restart" doc = Some (VList []) ->
  (forall (time_us : Z) (w : World),
      db w = coll ->
      on_start env time_us w =
        (Raise (no_record_error doc), log_event (EvDbFindOne (uid env)) w) /\
      db (snd (on_start env time_us w)) = coll /\
      trace (snd (on_start env time_us w)) = trace w ++ [EvDbFindOne (uid env)]) /\
  forall n : nat,
    boots env n coll = (repeat (Raise (no_record_error doc)) n, coll).
Proof.
  intros Hdoc Hrec.
  assert (Hone : forall (time_us : Z) (w : World),
             db w = coll ->
             on_start env time_us w =
               (Raise (no_record_error doc),
                log_event (EvDbFindOne (uid env)) w)).
  { intros time_us w Hw. apply on_start_no_record; [now rewrite Hw | exact Hrec]. }
  split.
  - intros time_us w Hw. rewrite (Hone time_us w Hw). simpl. auto.
  - induction n as [|k IH]; [reflexivity|].
    simpl. unfold boot. rewrite (Hone _ (fresh_world coll) eq_refl). simpl.
    now rewrite IH.
Qed.

Lemma on_start_fails_without_record_witness :
  (forall (time_us : Z) (w : World),
      db w = {[ 777 := empty_record_doc ]} ->
      on_start (sample_env run_return_42 [] None) time_us w =
        (Raise (IndexError "list index out of range"),
         log_event (EvDbFindOne 777) w) /\
      db (snd (on_start (sample_env run_return_42 [] None) time_us w))
        = {[ 777 := empty_record_doc ]} /\
      trace (snd (on_start (sample_env run_return_42 [] None) time_us w))
        = trace w ++ [EvDbFindOne 777]) /\
  forall n : nat,
    boots (sample_env run_return_42 [] None) n {[ 777 := empty_record_doc ]}
      = (repeat (Raise (IndexError "list index out of range")) n,
         {[ 777 := empty_record_doc ]}).
Proof.
  apply (on_start_fails_without_record (sample_env run_return_42 [] None)
           {[ 777 := empty_record_doc ]} empty_record_doc).
  - vm_compute. reflexivity.
  - right. reflexivity.
Defined.

(** *** The supervisor hook *)

(** [on_stopped] does nothing when no restart is pending; when one is,
    it never returns: the process is replaced by
    [sys.executable -m caligo], or [os.execv] raises. *)
Lemma on_stopped_spec (env : Env) (w : World) :
  (restart_pending w = false -> on_stopped env w = (Ok tt, w)) /\
  (restart_pending w = true ->
   exists w',
     trace w' = trace w ++
       [EvLogInfo ("Starting new bot instance..." +:+ nl);
        EvExecv (sys_executable env)
          [sys_executable env; "-m"%string; "caligo"%string]] /\
     on_stopped env w =
       (match os_execv env (log_event
                              (EvLogInfo ("Starting new bot instance..." +:+ nl))
                              w)
                (sys_executable env)
                [sys_executable env; "-m"%string; "caligo"%string] with
        | Some e => Raise e
        | None => Replaced (sys_executable env)
                    [sys_executable env; "-m"%string; "caligo"%string]
        end, w')).
Proof.
  unfold on_stopped, execv, log_info, sys_exit. run_monad. split; intros ->.
  - reflexivity.
  - destruct (os_execv env _ _ _); simpl; eexists;
      (split; [|reflexivity]); simpl; now rewrite <- app_assoc.
Qed.

(** C2: what the code does with the command line.  With a restart
    pending [on_stopped] replaces the process and does not return, but
    the new image is started as [sys.executable -m caligo] whatever the
    command line of the running process was: started as
    [python3 -O -m caligo], the bot comes back without [-O]. *)
Theorem on_stopped_relaunches_with_fixed_argv :
  fst (on_stopped (sample_env run_return_42 [] None) stopping_world) =
    Replaced "/usr/bin/python3" ["/usr/bin/python3"; "-m"; "caligo"]%string /\
  orig_argv (sample_env run_return_42 [] None) =
    ["/usr/bin/python3"; "-O"; "-m"; "caligo"]%string /\
  ["/usr/bin/python3"; "-m"; "caligo"]%string <>
    orig_argv (sample_env run_return_42 [] None) /\
  on_stopped (sample_env run_return_42 [] None) (fresh_world ∅) =
    (Ok tt, fresh_world ∅).
Proof. repeat split. discriminate. Qed.

(** ** [silent] *)

Module SilentFacts.
Import Silent.

(** When the null device cannot be opened the context is never entered
    and nothing changes. *)
Lemma silent_open_fails {A} (fails : PyState -> option Exn)
    (body : M PyState A) (s : PyState) (e : Exn) :
  fails s = Some e -> silent fails body s = (Raise e, s).
Proof.
  intros H. unfold silent, with_open_devnull, open_devnull. run_monad.
  now rewrite H.
Qed.

Lemma closed_after (h : nat) (files : gset nat) : h ∉ files ∖ {[h]}.
Proof.
  intros [_ Hne]%elem_of_difference. apply Hne. now apply elem_of_singleton.
Qed.

(** C10: when the context exits, by return or by an exception of the
    body, [sys.stdout] is bound to what it was bound to on entry,
    whatever the body did to it, and the file opened on the null device
    is closed; the outcome of the body is passed on. *)
Theorem silent_restores_stdout {A} (fails : PyState -> option Exn)
    (body : M PyState A) (s : PyState) :
  fails s = None ->
  (forall p a, fst (body (inside s)) <> Replaced p a) ->
  fst (silent fails body s) = fst (body (inside s)) /\
  sys_stdout (snd (silent fails body s)) = sys_stdout s /\
  next_handle s ∉ open_files (snd (silent fails body s)).
Proof.
  intros Hopen Hexit.
  unfold silent, with_open_devnull, open_devnull, close, try_finally,
    set_stdout.
  run_monad. rewrite Hopen. simpl. fold (inside s).
  destruct (body (inside s)) as [[a | e | p a] s3] eqn:Hbody; simpl in *.
  - split; [reflexivity | split; [reflexivity | apply closed_after]].
  - split; [reflexivity | split; [reflexivity | apply closed_after]].
  - now destruct (Hexit p a).
Qed.

Lemma silent_restores_stdout_witness :
  fst (silent (fun _ => None) unruly_body console_state)
    = fst (unruly_body (inside console_state)) /\
  sys_stdout (snd (silent (fun _ => None) unruly_body console_state)) = 1%nat /\
  3%nat ∉ open_files (snd (silent (fun _ => None) unruly_body console_state)).
Proof.
  apply (silent_restores_stdout (fun _ => None) unruly_body console_state).
  - reflexivity.
  - intros p a. simpl. discriminate.
Defined.

End SilentFacts.

(** ** Self-update *)

Lemma restart_calls_app (xs ys : list Event) :
  restart_calls (xs ++ ys) = (restart_calls xs + restart_calls ys)%nat.
Proof. induction xs as [|x xs IH]; simpl; [reflexivity | rewrite IH; lia]. Qed.

Lemma cmd_restart_trace (env : Env) (ctx : Context) (restart_time : option Z)
    (reason : string) (w : World) :
  exists evs,
    trace (snd (cmd_restart env ctx restart_time reason w)) =
      trace w ++ EvCmdRestart restart_time reason :: evs /\
    restart_calls evs = 0%nat.
Proof.
  unfold cmd_restart, call, call_, log_info, db_update_one_add_to_set,
    restart_time_or_now, usec.
  run_monad.
  destruct (ctx_respond env _ ctx _) as [e | resp_msg]; simpl;
    [rewrite <- !app_assoc; eexists; split; reflexivity|].
  destruct restart_time as [t|]; [destruct (t =? 0)|]; simpl;
    (destruct (add_to_set _ _ _ _) as [e | coll]; simpl;
     [rewrite <- !app_assoc; eexists; split; reflexivity|]);
    destruct (bot_stop env _); simpl; rewrite <- !app_assoc;
    eexists; split; reflexivity.
Qed.

Lemma restart_after_update_trace (env : Env) (ctx : Context) (update_time : Z)
    (w : World) :
  exists post,
    trace (snd (restart_after_update env ctx update_time w)) =
      trace w ++ EvCmdRestart (Some update_time) "update" :: post /\
    restart_calls post = 0%nat.
Proof.
  destruct (cmd_restart_trace env ctx (Some update_time) "update" w)
    as (post & Htrace & Hcalls).
  exists post. split; [|exact Hcalls].
  unfold restart_after_update. run_monad.
  destruct (cmd_restart env ctx (Some update_time) "update" w)
    as [[[] | e | p a] w']; exact Htrace.
Qed.

(** Closes a branch of the flow that ends without a restart. *)
Ltac no_restart :=
  eexists; split; [simpl; rewrite <- ?app_assoc; reflexivity|];
  simpl; repeat split; try lia; try discriminate; try congruence;
  intros;
  try match goal with
      | H : pulled _ _ |- _ =>
          destruct H as (remote' & Hin & Hpulled); simpl in Hin;
          intuition (try discriminate; congruence)
      end.

Lemma pull_and_restart_rule (env : Env) (ctx : Context) (repo : Repo)
    (remote : string) (w : World) :
  exists evs,
    update_rule env repo w (pull_and_restart env ctx repo remote w) evs.
Proof.
  unfold update_rule, pull_and_restart, usec, call, call_. run_monad.
  destruct (ctx_respond env (tick w) ctx _) as [e | m1]; simpl; [no_restart|].
  destruct (remote_pull env remote) as [e1|] eqn:Hpull; simpl; [no_restart|].
  destruct (touches_lock_file (commit_diff env)) eqn:Hlock;
    destruct (commit_diff env) as [|change diff] eqn:Hdiff; simpl;
    try solve [no_restart].
  - destruct (truthy (get_venv_path env)) eqn:Hvenv; [|no_restart].
    destruct (ctx_respond env _ ctx _) as [e2 | m2]; simpl; [no_restart|].
    destruct (run_command env _) as [e3 | [[out err] code]] eqn:Hrun; simpl;
      [no_restart|].
    destruct (Z.eqb_spec code 0) as [-> | Hcode]; simpl; [|no_restart].
    match goal with
    | |- context [restart_after_update env ctx ?t ?w1] =>
        destruct (restart_after_update_trace env ctx t w1)
          as (post & Htrace & Hpost)
    end.
    simpl in Htrace. rewrite <- !app_assoc in Htrace. simpl in Htrace.
    eexists. split; [exact Htrace|].
    simpl. rewrite Hpost. split; [lia|]. split; [intros _; split|split].
    + split; [congruence|]. right. split; [assumption|]. now exists out, err.
    + eexists [_; _; _; _], post, remote. split; [reflexivity|].
      simpl. auto.
    + intros; congruence.
    + intros; congruence.
  - match goal with
    | |- context [restart_after_update env ctx ?t ?w1] =>
        destruct (restart_after_update_trace env ctx t w1)
          as (post & Htrace & Hpost)
    end.
    simpl in Htrace. rewrite <- !app_assoc in Htrace. simpl in Htrace.
    eexists. split; [exact Htrace|].
    simpl. rewrite Hpost. split; [lia|]. split; [intros _; split|split].
    + split; [congruence|]. left. congruence.
    + eexists [_; _], post, remote. split; [reflexivity|].
      simpl. auto.
    + intros; congruence.
    + intros; congruence.
Qed.

(** With git, a repository and a remote, [cmd_update] is the flow from
    "Save time and old commit for diffing" on. *)
Lemma cmd_update_resolved (env : Env) (ctx : Context) (w : World)
    (repo : Repo) (remote : string) :
  have_git env = true ->
  get_repo env = Some repo ->
  resolved_remote env ctx remote ->
  cmd_update env ctx w = pull_and_restart env ctx repo remote w.
Proof.
  intros Hgit Hrepo Hremote. unfold cmd_update. rewrite Hgit, Hrepo. simpl.
  destruct Hremote as [[Hinput Hnamed] | [Hinput Htracked]].
  - rewrite Hnamed. destruct (input ctx); [contradiction | reflexivity].
  - rewrite Hinput, Htracked. reflexivity.
Qed.

(** The flow once the progress message was sent and the pull went
    through. *)
Lemma pull_and_restart_after_pull (env : Env) (ctx : Context) (repo : Repo)
    (remote : string) (w : World) (m : Message) :
  ctx_respond env (tick w) ctx (pull_message remote) = inr m ->
  remote_pull env remote = None ->
  pull_and_restart env ctx repo remote w =
    match commit_diff env with
    | [] => (Ok (Some no_updates_reply), after_pull remote w)
    | _ :: _ =>
        if touches_lock_file (commit_diff env) then
          if truthy (get_venv_path env) then
            match ctx_respond env (after_pull remote w) ctx
                    "Updating dependencies..." with
            | inl e =>
                (Raise e,
                 log_event (EvCtxRespond "Updating dependencies...")
                   (after_pull remote w))
            | inr _ =>
                match run_command env (pip_install env repo) with
                | inl e => (Raise e, after_reinstall env repo remote w)
                | inr r =>
                    if snd r =? 0 then
                      restart_after_update env ctx
                        (usec_at env (clock_reads w))
                        (after_reinstall env repo remote w)
                    else
                      (Ok (Some (dependency_error_reply (fst (fst r)))),
                       after_reinstall env repo remote w)
                end
            end
          else (Ok (Some manual_update_reply), after_pull remote w)
        else
          restart_after_update env ctx (usec_at env (clock_reads w))
            (after_pull remote w)
    end.
Proof.
  intros Hrespond Hpull.
  unfold pull_and_restart, usec, call, call_, after_reinstall, after_pull,
    pip_install, pull_message in *.
  run_monad. rewrite Hrespond. simpl. rewrite Hpull. simpl.
  clear Hrespond Hpull.
  destruct (touches_lock_file (commit_diff env));
    destruct (commit_diff env) as [|change diff]; simpl; try reflexivity.
  destruct (truthy (get_venv_path env)); [|reflexivity].
  destruct (ctx_respond env _ ctx _) as [e | m2]; simpl; [reflexivity|].
  destruct (run_command env _) as [e | r]; simpl; [reflexivity|].
  destruct (snd r =? 0); reflexivity.
Qed.

(** The restart rule over every run of [cmd_update], the early returns
    included. *)
Lemma cmd_update_only_when (env : Env) (ctx : Context) (w : World) :
  exists evs,
    trace (snd (cmd_update env ctx w)) = trace w ++ evs /\
    (restart_calls evs <= 1)%nat /\
    (restart_calls evs = 1%nat ->
     (exists repo, get_repo env = Some repo /\ restart_allowed env repo) /\
     exists pre post remote,
       evs = pre ++ EvCmdRestart (Some (usec_at env (clock_reads w))) "update"
                    :: post /\
       In (EvPull remote) pre) /\
    (commit_diff env = [] ->
     restart_calls evs = 0%nat /\
     (pulled env evs ->
      fst (cmd_update env ctx w) = Ok (Some no_updates_reply))) /\
    (touches_lock_file (commit_diff env) = true ->
     truthy (get_venv_path env) = false ->
     restart_calls evs = 0%nat /\
     (pulled env evs ->
      fst (cmd_update env ctx w) = Ok (Some manual_update_reply))).
Proof.
  assert (Hearly : forall r : Res (option string),
             exists evs,
               trace w = trace w ++ evs /\
               (restart_calls evs <= 1)%nat /\
               (restart_calls evs = 1%nat ->
                (exists repo, get_repo env = Some repo /\ restart_allowed env repo) /\
                exists pre post remote,
                  evs = pre ++ EvCmdRestart
                                 (Some (usec_at env (clock_reads w))) "update"
                               :: post /\
                  In (EvPull remote) pre) /\
               (commit_diff env = [] ->
                restart_calls evs = 0%nat /\
                (pulled env evs -> r = Ok (Some no_updates_reply))) /\
               (touches_lock_file (commit_diff env) = true ->
                truthy (get_venv_path env) = false ->
                restart_calls evs = 0%nat /\
                (pulled env evs -> r = Ok (Some manual_update_reply)))).
  { intros r. exists []. rewrite app_nil_r. simpl.
    repeat split; try lia; try discriminate;
      intros; match goal with
              | H : pulled _ [] |- _ => destruct H as (? & [] & _)
              end. }
  unfold cmd_update. run_monad.
  destruct (have_git env); simpl; [|apply Hearly].
  destruct (get_repo env) as [repo|] eqn:Hrepo; [|apply Hearly].
  assert (Hflow : forall remote,
             exists evs,
               trace (snd (pull_and_restart env ctx repo remote w))
                 = trace w ++ evs /\
               (restart_calls evs <= 1)%nat /\
               (restart_calls evs = 1%nat ->
                (exists repo', Some repo = Some repo' /\ restart_allowed env repo') /\
                exists pre post remote',
                  evs = pre ++ EvCmdRestart
                                 (Some (usec_at env (clock_reads w))) "update"
                               :: post /\
                  In (EvPull remote') pre) /\
               (commit_diff env = [] ->
                restart_calls evs = 0%nat /\
                (pulled env evs ->
                 fst (pull_and_restart env ctx repo remote w)
                   = Ok (Some no_updates_reply))) /\
               (touches_lock_file (commit_diff env) = true ->
                truthy (get_venv_path env) = false ->
                restart_calls evs = 0%nat /\
                (pulled env evs ->
                 fst (pull_and_restart env ctx repo remote w)
                   = Ok (Some manual_update_reply)))).
  { intros remote.
    destruct (pull_and_restart_rule env ctx repo remote w)
      as (evs & Htrace & Hle & Honly & Hempty & Hlock).
    exists evs. repeat split; try assumption.
    - exists repo. split; [reflexivity|]. now apply Honly.
    - now apply Honly.
    - now apply Hempty.
    - now apply Hempty.
    - now apply Hlock.
    - now apply Hlock. }
  destruct (input ctx) as [|c remote_name]; simpl.
  - destruct (get_current_remote env) as [remote|];
      [apply Hflow | simpl; apply Hearly].
  - destruct (repo_remote env _) as [e | remote].
    + destruct (String.eqb (exc_type e) "ValueError"); simpl; apply Hearly.
    + apply Hflow.
Qed.

(** C8: [cmd_update] invokes the restart coordinator at most once, and
    only when the pulled diff is not empty and either leaves
    "poetry.lock" alone or the reinstall in the detected virtualenv
    exited with 0; the call comes after the pull and carries the reason
    "update" and the clock reading taken before the pull; with an empty
    diff, and with a diff touching the lock file and no virtualenv path,
    there is no call.  When git, the repository and the remote are there,
    the progress message is sent and the pull goes through: an empty diff
    ends the handler with "No updates found." right after the pull; a
    diff touching the lock file with no virtualenv path ends it there
    with the manual-update instruction; a diff that is not empty and
    leaves the lock file alone, or a reinstall that exits with 0, hands
    over to the restart coordinator with the clock reading taken before
    the pull. *)
Theorem cmd_update_restart_rule :
  (forall (env : Env) (ctx : Context) (w : World),
      exists evs,
        trace (snd (cmd_update env ctx w)) = trace w ++ evs /\
        (restart_calls evs <= 1)%nat /\
        (restart_calls evs = 1%nat ->
         (exists repo, get_repo env = Some repo /\ restart_allowed env repo) /\
         exists pre post remote,
           evs = pre ++ EvCmdRestart (Some (usec_at env (clock_reads w)))
                          "update" :: post /\
           In (EvPull remote) pre) /\
        (commit_diff env = [] -> restart_calls evs = 0%nat) /\
        (touches_lock_file (commit_diff env) = true ->
         truthy (get_venv_path env) = false ->
         restart_calls evs = 0%nat)) /\
  (forall (env : Env) (ctx : Context) (w : World) (repo : Repo)
          (remote : string) (m : Message),
      have_git env = true ->
      get_repo env = Some repo ->
      resolved_remote env ctx remote ->
      ctx_respond env (tick w) ctx (pull_message remote) = inr m ->
      remote_pull env remote = None ->
      (commit_diff env = [] ->
       cmd_update env ctx w =
         (Ok (Some no_updates_reply), after_pull remote w)) /\
      (touches_lock_file (commit_diff env) = true ->
       truthy (get_venv_path env) = false ->
       cmd_update env ctx w =
         (Ok (Some manual_update_reply), after_pull remote w)) /\
      (commit_diff env <> [] ->
       touches_lock_file (commit_diff env) = false ->
       cmd_update env ctx w =
         restart_after_update env ctx (usec_at env (clock_reads w))
           (after_pull remote w)) /\
      (forall (m2 : Message) (out err : string),
          touches_lock_file (commit_diff env) = true ->
          truthy (get_venv_path env) = true ->
          ctx_respond env (after_pull remote w) ctx
            "Updating dependencies..." = inr m2 ->
          run_command env (pip_install env repo) = inr (out, err, 0) ->
          cmd_update env ctx w =
            restart_after_update env ctx (usec_at env (clock_reads w))
              (after_reinstall env repo remote w))).
Proof.
  split.
  - intros env ctx w.
    destruct (cmd_update_only_when env ctx w)
      as (evs & Htrace & Hle & Honly & Hempty & Hlock).
    exists evs. repeat split; try assumption.
    + now apply Honly.
    + now apply Honly.
    + now apply Hempty.
    + intros Hl Hv. now apply Hlock.
  - intros env ctx w repo remote m Hgit Hrepo Hremote Hrespond Hpull.
    rewrite (cmd_update_resolved env ctx w repo remote Hgit Hrepo Hremote),
      (pull_and_restart_after_pull env ctx repo remote w m Hrespond Hpull).
    split; [|split; [|split]].
    + intros ->. reflexivity.
    + intros Hlock Hvenv. rewrite Hlock, Hvenv.
      destruct (commit_diff env); [discriminate | reflexivity].
    + intros Hdiff ->. destruct (commit_diff env);
        [contradiction | reflexivity].
    + intros m2 out err Hlock Hvenv Hrespond2 Hrun.
      rewrite Hlock, Hvenv, Hrespond2, Hrun.
      destruct (commit_diff env); [discriminate | reflexivity].
Qed.

Lemma cmd_update_restart_rule_witness :
  cmd_update (sample_env run_return_42 [] None) update_ctx (fresh_world ∅) =
    (Ok (Some no_updates_reply), after_pull "origin" (fresh_world ∅)) /\
  cmd_update (sample_env run_return_42 [lock_change] None) update_ctx
    (fresh_world ∅) =
    (Ok (Some manual_update_reply), after_pull "origin" (fresh_world ∅)) /\
  cmd_update (sample_env run_return_42 [readme_change] None) update_ctx
    (fresh_world ∅) =
    restart_after_update (sample_env run_return_42 [readme_change] None)
      update_ctx 1000 (after_pull "origin" (fresh_world ∅)).
Proof.
  destruct cmd_update_restart_rule as [_ Hreplies].
  split; [|split].
  - exact (proj1 (Hreplies (sample_env run_return_42 [] None) update_ctx
                    (fresh_world ∅) (mkRepo "master" "/srv/caligo")
                    "origin"%string _ eq_refl eq_refl
                    (or_intror (conj eq_refl eq_refl)) eq_refl eq_refl)
             eq_refl).
  - exact (proj1 (proj2 (Hreplies
                           (sample_env run_return_42 [lock_change] None)
                           update_ctx (fresh_world ∅)
                           (mkRepo "master" "/srv/caligo") "origin"%string _
                           eq_refl eq_refl (or_intror (conj eq_refl eq_refl))
                           eq_refl eq_refl))
             eq_refl eq_refl).
  - exact (proj1 (proj2 (proj2 (Hreplies
                           (sample_env run_return_42 [readme_change] None)
                           update_ctx (fresh_world ∅)
                           (mkRepo "master" "/srv/caligo") "origin"%string _
                           eq_refl eq_refl (or_intror (conj eq_refl eq_refl))
                           eq_refl eq_refl)))
             ltac:(discriminate) eq_refl).
Defined.

(** Four runs of [cmd_update]: an ordinary change, no change, a change
    of the lock file outside and inside a virtualenv. *)
Example update_restarts_once :
  fst (cmd_update (sample_env run_return_42 [readme_change] None) update_ctx
         (fresh_world ∅)) = Ok None /\
  trace (snd (cmd_update (sample_env run_return_42 [readme_change] None)
                update_ctx (fresh_world ∅))) =
    [EvCtxRespond "Pulling changes from `origin`..."; EvPull "origin";
     EvCmdRestart (Some 1000) "update"; EvCtxRespond "Restarting bot...";
     EvDbAddToSet 777 "restart" update_record;
     EvLogInfo "Preparing to restart..."; EvBotStop] /\
  db (snd (cmd_update (sample_env run_return_42 [readme_change] None)
             update_ctx (fresh_world ∅))) = stored_update.
Proof. vm_compute. repeat split. Qed.

Example update_without_changes :
  fst (cmd_update (sample_env run_return_42 [] None) update_ctx
         (fresh_world ∅)) = Ok (Some no_updates_reply) /\
  restart_calls
    (trace (snd (cmd_update (sample_env run_return_42 [] None) update_ctx
                   (fresh_world ∅)))) = 0%nat.
Proof. vm_compute. repeat split. Qed.

Example update_lock_file_without_venv :
  fst (cmd_update (sample_env run_return_42 [lock_change] None) update_ctx
         (fresh_world ∅)) = Ok (Some manual_update_reply) /\
  restart_calls
    (trace (snd (cmd_update (sample_env run_return_42 [lock_change] None)
                   update_ctx (fresh_world ∅)))) = 0%nat.
Proof. vm_compute. repeat split. Qed.

Example update_lock_file_in_venv :
  fst (cmd_update
         (sample_env run_return_42 [lock_change] (Some "/srv/venv"%string))
         update_ctx (fresh_world ∅)) = Ok None /\
  restart_calls
    (trace (snd (cmd_update
                   (sample_env run_return_42 [lock_change]
                      (Some "/srv/venv"%string))
                   update_ctx (fresh_world ∅)))) = 1%nat.
Proof. vm_compute. repeat split. Qed.

(** An update from start to finish: the record [cmd_update] leaves says
    "update", and the process that takes over reports a plain restart. *)
Example update_then_resume :
  trace (snd (on_start (sample_env run_return_42 [readme_change] None) 1500
                (resumed_world
                   (db (snd (cmd_update
                               (sample_env run_return_42 [readme_change] None)
                               update_ctx (fresh_world ∅))))))) =
  [EvDbFindOne 777; EvDbDeleteOne 777;
   EvLogInfo "Bot restarted in 500 us";
   EvGetMessages (VInt 5) (VInt 42);
   EvBotRespond sample_message "Bot restarted in 500 us."].
Proof. vm_compute. reflexivity. Qed.

(** * Further properties of the module *)

(** ** Strings and lines *)

Lemma split_lines_not_nil (s : string) : split_lines s <> [].
Proof.
  induction s as [|c s IH]; simpl; [discriminate|].
  destruct (Ascii.eqb c (ascii_of_nat 10)); [discriminate|].
  destruct (split_lines s); discriminate.
Qed.

Lemma split_lines_one_line (l rest : string) :
  one_line l = true ->
  split_lines (l +:+ nl +:+ rest) = l :: split_lines rest.
Proof.
  induction l as [|c l IH]; intros Hl; [reflexivity|].
  simpl in Hl. apply andb_true_iff in Hl as [Hc Hl].
  rewrite append_cons. simpl.
  destruct (Ascii.eqb c (ascii_of_nat 10)); [discriminate|].
  now rewrite (IH Hl).
Qed.

Lemma join_split_lines (s : string) : String.concat nl (split_lines s) = s.
Proof.
  induction s as [|c s IH]; [reflexivity|]. simpl.
  destruct (Ascii.eqb_spec c (ascii_of_nat 10)) as [-> | Hc].
  - pose proof (split_lines_not_nil s) as Hne.
    destruct (split_lines s) as [|line lines]; [contradiction|].
    change (String.concat nl (EmptyString :: line :: lines))
      with (nl +:+ String.concat nl (line :: lines)).
    now rewrite IH.
  - pose proof (split_lines_not_nil s) as Hne.
    destruct (split_lines s) as [|line lines]; [contradiction|].
    destruct lines as [|line' lines].
    + simpl in *. now rewrite IH.
    + change (String.concat nl (String c line :: line' :: lines))
        with (String c (line +:+ nl +:+ String.concat nl (line' :: lines))).
      change (String.concat nl (line :: line' :: lines))
        with (line +:+ nl +:+ String.concat nl (line' :: lines)) in IH.
      now rewrite IH.
Qed.

Lemma last_char_append_nl (s : string) : last_char (s +:+ nl) = nl.
Proof.
  induction s as [|c s IH]; [reflexivity|].
  change (String c s +:+ nl) with (String c (s +:+ nl)).
  destruct s as [|c' s']; [reflexivity|].
  change (String c' s' +:+ nl) with (String c' (s' +:+ nl)) in *.
  exact IH.
Qed.

Lemma last_char_endswith (s : string) :
  last_char s = nl -> exists s', s = s' +:+ nl.
Proof.
  induction s as [|c s IH]; [discriminate|].
  destruct s as [|c' s'].
  - simpl. intros [= ->]. now exists ""%string.
  - intros H. destruct (IH H) as [t Ht]. exists (String c t).
    rewrite append_cons. now rewrite <- Ht.
Qed.

(** ** The evaluation sandbox, further *)

(** X1: without a usable snippet [cmd_eval] runs nothing.  With no
    argument it answers "Give me code to evaluate."; with arguments but
    no space in the message text, [split(" ", 1)[1]] raises
    [IndexError]; in both cases the world is left as it was (no clock
    reading, no call of [meval]). *)
Theorem cmd_eval_without_snippet (env : Env) (ctx : Context) (w : World) :
  (cmd ctx = [] ->
   cmd_eval env ctx w = (Ok "Give me code to evaluate."%string, w)) /\
  (cmd ctx <> [] ->
   split_space_1_snd (text (msg ctx)) = None ->
   cmd_eval env ctx w = (Raise (IndexError "list index out of range"), w)).
Proof.
  unfold cmd_eval. split.
  - intros ->. reflexivity.
  - intros Hcmd ->. destruct (cmd ctx); [contradiction | reflexivity].
Qed.

(** X2: the body of the report of a snippet that returns, having only
    printed (the buffer is open and positioned at its end).  If the
    snippet printed nothing the body is [str(result)] ("None" for a
    snippet that returns nothing); if it printed and returned [None] the
    body is what it printed, less one final newline; if it printed and
    returned a value the body is what it printed followed by the
    value. *)
Theorem cmd_eval_body_of_result (env : Env) (ctx : Context) (w : World)
    (code : string) (b : StringIO) (v : pyval) :
  cmd ctx <> [] ->
  split_space_1_snd (text (msg ctx)) = Some code ->
  meval env (tick w) code = mkRun b (inr v) ->
  sio_closed b = false ->
  sio_pos b = String.length (sio_value b) ->
  exists body,
    fst (cmd_eval env ctx w) =
      Ok (eval_report "" code body
            (format_duration_us env
               (usec_at env (S (clock_reads w)) - usec_at env (clock_reads w))))
    /\ (sio_value b = ""%string -> body = py_str v)
    /\ (sio_value b <> ""%string -> v = PyNone ->
        body = strip_one_newline (sio_value b))
    /\ (sio_value b <> ""%string -> v <> PyNone ->
        body = sio_value b +:+ py_str v).
Proof.
  intros Hcmd Hcode Hrun Hopen Hend.
  exists (strip_one_newline
            (sio_value (if writes_result (sio_value b) v
                        then sio_write b (py_str v +:+ nl) else b))).
  split;
    [exact (cmd_eval_of_return env ctx w code b v Hcmd Hcode Hrun Hopen)|].
  unfold writes_result.
  split; [|split].
  - intros Hval. rewrite Hval at 1. cbn [String.eqb orb].
    rewrite (sio_write_at_end b _ Hend), Hval.
    apply strip_one_newline_append.
  - intros Hne ->. destruct (String.eqb_spec (sio_value b) "");
      [contradiction | reflexivity].
  - intros Hne Hv. destruct (String.eqb_spec (sio_value b) "");
      [contradiction|].
    assert (is_not_None v = true) as -> by (destruct v; try reflexivity; contradiction).
    cbn [orb]. rewrite (sio_write_at_end b _ Hend), <- append_assoc_str.
    apply strip_one_newline_append.
Qed.

Lemma cmd_eval_body_of_result_witness :
  exists body,
    fst (cmd_eval (sample_env run_print_and_return [] None)
           (eval_ctx "/eval print('x'); return 42") (fresh_world ∅)) =
      Ok (eval_report "" "print('x'); return 42" body "10 us")
    /\ ("x" +:+ nl = ""%string -> body = py_str (PyInt 42))
    /\ ("x" +:+ nl <> ""%string -> PyInt 42 = PyNone ->
        body = strip_one_newline ("x" +:+ nl))
    /\ ("x" +:+ nl <> ""%string -> PyInt 42 <> PyNone ->
        body = ("x" +:+ nl) +:+ py_str (PyInt 42)).
Proof.
  exact (cmd_eval_body_of_result (sample_env run_print_and_return [] None)
           (eval_ctx "/eval print('x'); return 42") (fresh_world ∅)
           "print('x'); return 42"%string (mkStringIO ("x" +:+ nl) 2 false)
           (PyInt 42) ltac:(discriminate) eq_refl eq_refl eq_refl eq_refl).
Defined.

(** X3: a snippet that raises in its own code never makes [cmd_eval]
    raise.  When the snippet raises an [Exception] whose traceback has a
    frame that passes the test and the buffer is open, the handler
    returns a report with the error prefix; its body is read off the
    buffer with the traceback, formatted from the first passing frame
    on, written in at the stream position, less one final newline; for
    a snippet that only printed, that is what it printed followed by the
    traceback. *)
Theorem cmd_eval_reports_snippet_error (env : Env) (ctx : Context) (w : World)
    (code : string) (b : StringIO) (e : Exn) (g : Frame) :
  cmd ctx <> [] ->
  split_space_1_snd (text (msg ctx)) = Some code ->
  meval env (tick w) code = mkRun b (inl e) ->
  is_Exception e = true ->
  In g (exc_tb e) ->
  involves_snippet g = true ->
  sio_closed b = false ->
  exists pre f post,
    exc_tb e = pre ++ f :: post /\
    Forall not_snippet pre /\
    involves_snippet f = true /\
    fst (cmd_eval env ctx w) =
      Ok (eval_report error_prefix code
            (strip_one_newline
               (sio_value
                  (sio_write b (format_exception env e (f :: post) +:+ nl))))
            (format_duration_us env
               (usec_at env (S (clock_reads w)) - usec_at env (clock_reads w))))
    /\
    (sio_pos b = String.length (sio_value b) ->
     fst (cmd_eval env ctx w) =
       Ok (eval_report error_prefix code
             (sio_value b +:+ format_exception env e (f :: post))
             (format_duration_us env
                (usec_at env (S (clock_reads w))
                 - usec_at env (clock_reads w))))).
Proof.
  intros Hcmd Hcode Hrun Hexc Hin Hg Hopen.
  destruct (first_passing_frame (exc_tb e) g Hin Hg)
    as (pre & f & post & Htb & Hpre & Hf).
  exists pre, f, post.
  pose proof (cmd_eval_of_error env ctx w code b e pre post f Hcmd Hcode Hrun
                Hexc Htb Hpre Hf Hopen) as Hreport.
  repeat split; try assumption.
  intros Hend. rewrite Hreport, (sio_write_at_end b _ Hend).
  now rewrite <- append_assoc_str, strip_one_newline_append.
Qed.

Lemma cmd_eval_reports_snippet_error_witness :
  exists pre f post,
    [frame_in_module; frame_in_meval; frame_in_snippet] = pre ++ f :: post /\
    Forall not_snippet pre /\
    involves_snippet f = true /\
    fst (cmd_eval (sample_env run_print_then_raise [] None)
           (eval_ctx "/eval print('step 1'); 1/0") (fresh_world ∅)) =
      Ok (eval_report error_prefix "print('step 1'); 1/0"
            (strip_one_newline
               (sio_value
                  (sio_write (mkStringIO ("step 1" +:+ nl) 7 false)
                     (list_files
                        (mkExn "ZeroDivisionError" "division by zero" true
                           [frame_in_module; frame_in_meval; frame_in_snippet])
                        (f :: post) +:+ nl))))
            "10 us")
    /\
    (7%nat = String.length ("step 1" +:+ nl) ->
     fst (cmd_eval (sample_env run_print_then_raise [] None)
            (eval_ctx "/eval print('step 1'); 1/0") (fresh_world ∅)) =
       Ok (eval_report error_prefix "print('step 1'); 1/0"
             (("step 1" +:+ nl) +:+
              list_files
                (mkExn "ZeroDivisionError" "division by zero" true
                   [frame_in_module; frame_in_meval; frame_in_snippet])
                (f :: post))
             "10 us")).
Proof.
  exact (cmd_eval_reports_snippet_error
           (sample_env run_print_then_raise [] None)
           (eval_ctx "/eval print('step 1'); 1/0") (fresh_world ∅)
           "print('step 1'); 1/0"%string (mkStringIO ("step 1" +:+ nl) 7 false)
           _ frame_in_snippet ltac:(discriminate) eq_refl eq_refl eq_refl
           (or_intror (or_intror (or_introl eq_refl))) eq_refl eq_refl).
Defined.

(** The operator can move the stream position: after
    [stdout.write('hello'); stdout.seek(0); return 42] the result goes
    in over the start of what was written. *)
Example eval_result_written_at_position :
  fst (cmd_eval (sample_env (mkRun (mkStringIO "hello" 0 false)
                               (inr (PyInt 42))) [] None)
         (eval_ctx "/eval stdout.write('hello'); stdout.seek(0); return 42")
         (fresh_world ∅)) =
  Ok (eval_report ""
        "stdout.write('hello'); stdout.seek(0); return 42"
        ("42" +:+ nl +:+ "lo") "10 us").
Proof. vm_compute. reflexivity. Qed.

(** ** The shell and system-information handlers *)

Lemma shell_output_shape (stdout : string) :
  shell_output stdout <> ""%string /\
  (stdout = ""%string -> shell_output stdout = "[no output]"%string) /\
  (stdout <> ""%string ->
   (exists s, shell_output stdout = s +:+ nl) /\
   (last_char stdout = nl -> shell_output stdout = stdout) /\
   (last_char stdout <> nl -> shell_output stdout = stdout +:+ nl)).
Proof.
  unfold shell_output. destruct (String.eqb_spec stdout "") as [-> | Hne].
  - split; [discriminate|]. split; [reflexivity | contradiction].
  - destruct (String.eqb_spec (last_char stdout) nl) as [Hlast | Hlast]; simpl.
    + split; [assumption|]. split; [contradiction|]. intros _.
      split; [now apply last_char_endswith|]. split; [reflexivity | contradiction].
    + split; [destruct stdout; [contradiction | discriminate]|].
      split; [contradiction|]. intros _.
      split; [now exists stdout|]. split; [contradiction | reflexivity].
Qed.

(** X4: a command that completes.  [cmd_shell] answers once, runs the
    argument list exactly as given, once, and returns the report; the
    output shown is never empty: "[no output]" for an empty output,
    otherwise the output itself, with a newline added only when it does
    not end in one; the return code is mentioned only when it is not 0.
    What the command wrote to its standard error is not shown. *)
Theorem cmd_shell_completes (env : Env) (format_exc : Exn -> string)
    (ctx : Context) (w : World) (m : Message) (stdout stderr : string)
    (ret : Z) :
  cmd ctx <> [] ->
  ctx_respond env w ctx "Running snippet..." = inr m ->
  run_command env (cmd ctx) = inr (stdout, stderr, ret) ->
  fst (cmd_shell env format_exc ctx w) =
    Ok (shell_report (String.concat " " (cmd ctx)) stdout ret
          (format_duration_us env
             (usec_at env (S (clock_reads w)) - usec_at env (clock_reads w))))
  /\ trace (snd (cmd_shell env format_exc ctx w)) =
       trace w ++ [EvCtxRespond "Running snippet..."; EvRunCommand (cmd ctx)]
  /\ shell_output stdout <> ""%string
  /\ (stdout = ""%string -> shell_output stdout = "[no output]"%string)
  /\ (stdout <> ""%string ->
      (exists s, shell_output stdout = s +:+ nl) /\
      (last_char stdout = nl -> shell_output stdout = stdout) /\
      (last_char stdout <> nl -> shell_output stdout = stdout +:+ nl))
  /\ (ret = 0 -> return_code_warning ret = ""%string).
Proof.
  intros Hcmd Hresp Hrun.
  assert (Hhandler :
    cmd_shell env format_exc ctx w =
      (Ok (shell_report (String.concat " " (cmd ctx)) stdout ret
             (format_duration_us env
                (usec_at env (S (clock_reads w)) - usec_at env (clock_reads w)))),
       tick (log_event (EvRunCommand (cmd ctx))
               (tick (log_event (EvCtxRespond "Running snippet...") w))))).
  { unfold cmd_shell, call, attempt, run_with_timeout, usec.
    destruct (cmd ctx) as [|c cs] eqn:Ecmd; [contradiction|].
    run_monad. unfold call. rewrite Hresp. simpl. rewrite Hrun. reflexivity. }
  rewrite Hhandler. simpl. split; [reflexivity|].
  split; [now rewrite <- app_assoc|].
  split; [apply shell_output_shape|].
  split; [apply shell_output_shape|].
  split; [apply shell_output_shape|].
  intros ->. reflexivity.
Qed.

Lemma cmd_shell_completes_witness :
  fst (cmd_shell (with_run_command plain_env
                    (fun _ => inr ("total 0"%string, "warn"%string, 2)))
         show_type shell_ctx (fresh_world ∅)) =
    Ok (shell_report "ls -l" "total 0" 2 "10 us")
  /\ trace (snd (cmd_shell (with_run_command plain_env
                              (fun _ => inr ("total 0"%string, "warn"%string, 2)))
                   show_type shell_ctx (fresh_world ∅))) =
       [EvCtxRespond "Running snippet..."; EvRunCommand ["ls"; "-l"]%string]
  /\ shell_output "total 0" <> ""%string
  /\ ("total 0"%string = ""%string ->
      shell_output "total 0" = "[no output]"%string)
  /\ ("total 0"%string <> ""%string ->
      (exists s, shell_output "total 0" = s +:+ nl) /\
      (last_char "total 0" = nl -> shell_output "total 0" = "total 0"%string) /\
      (last_char "total 0" <> nl ->
       shell_output "total 0" = "total 0" +:+ nl))
  /\ (2 = 0 -> return_code_warning 2 = ""%string).
Proof.
  exact (cmd_shell_completes
           (with_run_command plain_env
              (fun _ => inr ("total 0"%string, "warn"%string, 2)))
           show_type shell_ctx (fresh_world ∅) (mkMessage 5 42 "Running snippet...")
           "total 0" "warn" 2 ltac:(discriminate) eq_refl eq_refl).
Defined.

(** X5: a command that cannot be run.  [FileNotFoundError] and
    [TimeoutError] from the command runner are turned into a report and
    the handler returns; any other exception leaves the handler as it
    is. *)
Theorem cmd_shell_errors (env : Env) (format_exc : Exn -> string)
    (ctx : Context) (w : World) (m : Message) (e : Exn) :
  cmd ctx <> [] ->
  ctx_respond env w ctx "Running snippet..." = inr m ->
  run_command env (cmd ctx) = inl e ->
  fst (cmd_shell env format_exc ctx w) =
    (if is_FileNotFoundError e then
       Ok (shell_not_found_report (String.concat " " (cmd ctx)) (format_exc e)
             (format_duration_us env
                (usec_at env (S (clock_reads w)) - usec_at env (clock_reads w))))
     else if is_TimeoutError e then
       Ok (shell_timeout_report (String.concat " " (cmd ctx))
             (format_duration_us env
                (usec_at env (S (clock_reads w)) - usec_at env (clock_reads w))))
     else Raise e).
Proof.
  intros Hcmd Hresp Hrun.
  unfold cmd_shell, call, attempt, run_with_timeout, usec.
  destruct (cmd ctx) as [|c cs] eqn:Ecmd; [contradiction|].
  run_monad. unfold call. rewrite Hresp. simpl. rewrite Hrun.
  destruct (is_FileNotFoundError e) eqn:Hnf; simpl; rewrite ?Hnf; simpl;
    [reflexivity|].
  destruct (is_TimeoutError e) eqn:Hto; simpl; rewrite ?Hnf, ?Hto; reflexivity.
Qed.

Lemma cmd_shell_errors_witness :
  fst (cmd_shell (with_run_command plain_env
                    (fun _ => inl (exn_named "PermissionError")))
         show_type shell_ctx (fresh_world ∅)) =
    Raise (exn_named "PermissionError") /\
  fst (cmd_shell (with_run_command plain_env
                    (fun _ => inl (exn_named "TimeoutError")))
         show_type shell_ctx (fresh_world ∅)) =
    Ok (shell_timeout_report "ls -l" "10 us").
Proof.
  split.
  - exact (cmd_shell_errors
             (with_run_command plain_env
                (fun _ => inl (exn_named "PermissionError")))
             show_type shell_ctx (fresh_world ∅)
             (mkMessage 5 42 "Running snippet...") _
             ltac:(discriminate) eq_refl eq_refl).
  - exact (cmd_shell_errors
             (with_run_command plain_env
                (fun _ => inl (exn_named "TimeoutError")))
             show_type shell_ctx (fresh_world ∅)
             (mkMessage 5 42 "Running snippet...") _
             ltac:(discriminate) eq_refl eq_refl).
Defined.

Lemma sysinfo_output_facts (stdout : string) (ret : Z) :
  (ret <> 0 -> sysinfo_output stdout ret = stdout) /\
  (ret = 0 ->
   (forall l1 l2 rest,
       one_line l1 = true -> one_line l2 = true ->
       stdout = l1 +:+ nl +:+ l2 +:+ nl +:+ rest ->
       sysinfo_output stdout ret = rest) /\
   ((length (split_lines stdout) <= 2)%nat ->
    sysinfo_output stdout ret = ""%string)).
Proof.
  unfold sysinfo_output. split.
  - intros Hret. destruct (Z.eqb_spec ret 0); [contradiction | reflexivity].
  - intros ->. simpl. split.
    + intros l1 l2 rest H1 H2 ->.
      rewrite (split_lines_one_line l1 _ H1), (split_lines_one_line l2 _ H2).
      simpl. apply join_split_lines.
    + intros Hlen. destruct (split_lines stdout) as [|a [|b [|c lines]]];
        simpl in *; try reflexivity; lia.
Qed.

(** X6: the reply of [cmd_sysinfo] when [neofetch] completes.  With
    return code 0 the first two lines of the output are dropped and the
    rest is shown unchanged (nothing is shown when the output has at
    most two lines); with another return code the whole output is shown,
    followed by the return code. *)
Theorem cmd_sysinfo_reply (env : Env) (ctx : Context) (w : World)
    (m : Message) (stdout stderr : string) (ret : Z) :
  ctx_respond env w ctx "Collecting system information..." = inr m ->
  run_command env ["neofetch"; "--stdout"]%string = inr (stdout, stderr, ret) ->
  fst (cmd_sysinfo env ctx w) =
    Ok ("```" +:+ sysinfo_output stdout ret +:+ "```" +:+
        return_code_warning ret) /\
  (ret <> 0 ->
   sysinfo_output stdout ret = stdout /\
   return_code_warning ret = "⚠️ Return code: " +:+ str_of_int ret) /\
  (ret = 0 ->
   return_code_warning ret = ""%string /\
   (forall l1 l2 rest,
       one_line l1 = true -> one_line l2 = true ->
       stdout = l1 +:+ nl +:+ l2 +:+ nl +:+ rest ->
       sysinfo_output stdout ret = rest) /\
   ((length (split_lines stdout) <= 2)%nat ->
    sysinfo_output stdout ret = ""%string)).
Proof.
  intros Hresp Hrun. split; [|split].
  - unfold cmd_sysinfo, call, attempt, run_with_timeout. run_monad.
    unfold call. rewrite Hresp. simpl. rewrite Hrun. reflexivity.
  - intros Hret. split; [now apply sysinfo_output_facts|].
    unfold return_code_warning.
    destruct (Z.eqb_spec ret 0); [contradiction | reflexivity].
  - intros Hret. split; [now subst|]. now apply sysinfo_output_facts.
Qed.

Lemma cmd_sysinfo_reply_witness :
  fst (cmd_sysinfo (with_run_command plain_env
                      (fun _ => inr (neofetch_output, ""%string, 0)))
         shell_ctx (fresh_world ∅)) =
    Ok ("```" +:+ sysinfo_output neofetch_output 0 +:+ "```" +:+
        return_code_warning 0) /\
  sysinfo_output neofetch_output 0 = "OS: Linux" +:+ nl +:+ "Shell: sh" +:+ nl.
Proof.
  destruct (cmd_sysinfo_reply
              (with_run_command plain_env
                 (fun _ => inr (neofetch_output, ""%string, 0)))
              shell_ctx (fresh_world ∅)
              (mkMessage 5 42 "Collecting system information...")
              neofetch_output "" 0 eq_refl eq_refl)
    as (Hreply & _ & Hzero).
  split; [exact Hreply|].
  destruct (Hzero eq_refl) as (_ & Hdrop & _).
  exact (Hdrop "user@host"%string "---------"%string
           ("OS: Linux" +:+ nl +:+ "Shell: sh" +:+ nl) eq_refl eq_refl eq_refl).
Defined.

(** X7: [cmd_sysinfo] when [neofetch] cannot be run.  A timeout and a
    missing executable each give their own reply and the handler
    returns; any other exception leaves the handler as it is. *)
Theorem cmd_sysinfo_errors (env : Env) (ctx : Context) (w : World)
    (m : Message) (e : Exn) :
  ctx_respond env w ctx "Collecting system information..." = inr m ->
  run_command env ["neofetch"; "--stdout"]%string = inl e ->
  fst (cmd_sysinfo env ctx w) =
    (if is_TimeoutError e then Ok sysinfo_timeout_reply
     else if is_FileNotFoundError e then Ok sysinfo_not_found_reply
     else Raise e).
Proof.
  intros Hresp Hrun.
  unfold cmd_sysinfo, call, attempt, run_with_timeout. run_monad.
  unfold call. rewrite Hresp. simpl. rewrite Hrun.
  destruct (is_TimeoutError e) eqn:Hto; simpl; rewrite ?Hto; simpl;
    [reflexivity|].
  destruct (is_FileNotFoundError e) eqn:Hnf; simpl; rewrite ?Hto, ?Hnf;
    reflexivity.
Qed.

Lemma cmd_sysinfo_errors_witness :
  fst (cmd_sysinfo (with_run_command plain_env
                      (fun _ => inl (exn_named "FileNotFoundError")))
         shell_ctx (fresh_world ∅)) = Ok sysinfo_not_found_reply.
Proof.
  exact (cmd_sysinfo_errors
           (with_run_command plain_env
              (fun _ => inl (exn_named "FileNotFoundError")))
           shell_ctx (fresh_world ∅)
           (mkMessage 5 42 "Collecting system information...") _
           eq_refl eq_refl).
Defined.

(** ** Values and documents *)

Section ValueInduction.

Variable P : value -> Prop.
Hypothesis HNone : P VNone.
Hypothesis HBool : forall b, P (VBool b).
Hypothesis HInt : forall n, P (VInt n).
Hypothesis HStr : forall s, P (VStr s).
Hypothesis HList : forall l, Forall P l -> P (VList l).
Hypothesis HDict : forall d, Forall (fun kv => P (snd kv)) d -> P (VDict d).

Fixpoint value_nested_ind (v : value) : P v :=
  match v with
  | VNone => HNone
  | VBool b => HBool b
  | VInt n => HInt n
  | VStr s => HStr s
  | VList l =>
      HList l ((fix go (xs : list value) : Forall P xs :=
                  match xs with
                  | [] => List.Forall_nil P
                  | x :: xs' =>
                      List.Forall_cons P x xs' (value_nested_ind x) (go xs')
                  end) l)
  | VDict d =>
      HDict d ((fix go (xs : list (string * value))
                  : Forall (fun kv => P (snd kv)) xs :=
                  match xs with
                  | [] => List.Forall_nil _
                  | kv :: xs' =>
                      List.Forall_cons (fun kv => P (snd kv)) kv xs'
                        (value_nested_ind (snd kv)) (go xs')
                  end) d)
  end.

End ValueInduction.

(** The comparison of values decides equality. *)
Lemma value_eqb_eq (a : value) : forall b, value_eqb a b = true <-> a = b.
Proof.
  induction a as [| b0 | n | s | l IH | d IH] using value_nested_ind;
    intros b; destruct b as [| b1 | m | t | l' | d']; simpl;
    try (split; [discriminate | congruence]); try tauto.
  - rewrite Bool.eqb_true_iff. split; congruence.
  - rewrite Z.eqb_eq. split; congruence.
  - rewrite String.eqb_eq. split; congruence.
  - revert l'. induction IH as [|x xs Hx _ IHxs]; intros [|y ys];
      try (split; [discriminate | congruence]); [tauto|].
    rewrite andb_true_iff, Hx. specialize (IHxs ys).
    split.
    + intros [-> Hrest]. apply IHxs in Hrest. congruence.
    + intros [= -> ->]. split; [reflexivity|]. now apply IHxs.
  - revert d'. induction IH as [|[k x] xs Hx _ IHxs]; intros [|[k' y] ys];
      try (split; [discriminate | congruence]); [tauto|].
    simpl in Hx. rewrite !andb_true_iff, String.eqb_eq, Hx.
    specialize (IHxs ys). split.
    + intros [[-> ->] Hrest]. apply IHxs in Hrest. congruence.
    + intros [= -> -> ->]. repeat split. now apply IHxs.
Qed.

Lemma existsb_value_eqb (v : value) (l : list value) :
  existsb (value_eqb v) l = true <-> In v l.
Proof.
  rewrite existsb_exists. split.
  - intros (x & Hin & Heq). apply value_eqb_eq in Heq. now subst.
  - intros Hin. exists v. split; [assumption|]. now apply value_eqb_eq.
Qed.

Lemma dict_lookup_dict_set (key : string) (v : value) (d : document) :
  dict_lookup key (dict_set key v d) = Some v.
Proof.
  induction d as [|[k x] d IH]; simpl.
  - now rewrite String.eqb_refl.
  - destruct (String.eqb k key) eqn:E; simpl; rewrite E; [reflexivity | exact IH].
Qed.

(** A successful [$addToSet]: the document exists afterwards, its array
    holds the value, and whatever the array held before is still there,
    in the same order and in front. *)
Lemma add_to_set_ok (id : Z) (field : string) (v : value)
    (coll coll' : gmap Z document) :
  field <> "_id"%string ->
  add_to_set id field v coll = inr coll' ->
  exists doc' l,
    coll' !! id = Some doc' /\
    dict_lookup field doc' = Some (VList l) /\
    In v l /\
    (forall doc l0,
        coll !! id = Some doc ->
        dict_lookup field doc = Some (VList l0) ->
        (In v l0 /\ coll' = coll /\ l = l0) \/
        (~ In v l0 /\ l = l0 ++ [v])).
Proof.
  intros Hfield_id. unfold add_to_set.
  destruct (coll !! id) as [doc|] eqn:Hdoc.
  - destruct (dict_lookup field doc) as [[| b | n | s | l0 | d]|] eqn:Hfield;
      try discriminate.
    + destruct (existsb (value_eqb v) l0) eqn:Hin; intros [= <-].
      * apply existsb_value_eqb in Hin.
        exists doc, l0. repeat split; try assumption.
        intros doc0 l1 [= <-] Hl1. unfold document in *.
        rewrite Hfield in Hl1. injection Hl1 as <-. left. auto.
      * exists (dict_set field (VList (l0 ++ [v])) doc), (l0 ++ [v]).
        split; [apply lookup_insert_eq|].
        split; [apply dict_lookup_dict_set|].
        split; [apply in_or_app; right; now left|].
        intros doc0 l1 [= <-] Hl1. unfold document in *.
        rewrite Hfield in Hl1. injection Hl1 as <-. right.
        split; [|reflexivity]. intros Hv. apply existsb_value_eqb in Hv.
        congruence.
    + intros [= <-].
      exists (dict_set field (VList [v]) doc), [v].
      split; [apply lookup_insert_eq|].
      split; [apply dict_lookup_dict_set|].
      split; [now left|].
      intros doc0 l1 [= <-] Hl1. unfold document in *. congruence.
  - intros [= <-].
    exists [("_id"%string, VInt id); (field, VList [v])], [v].
    split; [apply lookup_insert_eq|].
    split.
    { cbn [dict_lookup].
      destruct (String.eqb_spec "_id" field) as [E | _]; [congruence|].
      now rewrite String.eqb_refl. }
    split; [now left|]. intros doc0 l1 Hdoc0. congruence.
Qed.

(** ** The restart coordinator, further *)

(** [cmd_restart], step by step. *)
Lemma cmd_restart_cases (env : Env) (ctx : Context) (restart_time : option Z)
    (reason : string) (w : World) :
  match ctx_respond env (log_event (EvCmdRestart restart_time reason) w) ctx
          "Restarting bot..." with
  | inl e =>
      cmd_restart env ctx restart_time reason w =
        (Raise e, log_event (EvCtxRespond "Restarting bot...")
                    (log_event (EvCmdRestart restart_time reason) w))
  | inr resp_msg =>
      let record :=
        restart_record resp_msg (stored_time env restart_time w) reason in
      let w2 := before_store restart_time reason w in
      match add_to_set (uid env) "restart" record (db w) with
      | inl e =>
          cmd_restart env ctx restart_time reason w =
            (Raise e, log_event (EvDbAddToSet (uid env) "restart" record) w2)
      | inr coll =>
          exists r w',
            cmd_restart env ctx restart_time reason w = (r, w') /\
            db w' = coll /\ restart_pending w' = true /\
            stop_manual w' = true /\
            trace w' = trace w2 ++
              [EvDbAddToSet (uid env) "restart" record;
               EvLogInfo "Preparing to restart..."; EvBotStop] /\
            (r = Ok tt \/ exists e, r = Raise e)
      end
  end.
Proof.
  unfold cmd_restart, call, call_, log_info, db_update_one_add_to_set,
    restart_time_or_now, usec, stored_time, before_store.
  run_monad.
  destruct (ctx_respond env _ ctx _) as [e | resp_msg]; simpl; [reflexivity|].
  destruct restart_time as [t|]; [destruct (t =? 0)|]; simpl;
    (destruct (add_to_set _ _ _ _) as [e | coll]; simpl; [reflexivity|]);
    destruct (bot_stop env _) as [e|]; simpl;
    eexists; eexists; (split; [reflexivity|]); simpl;
    rewrite <- ?app_assoc; simpl; repeat split; eauto.
Qed.

Lemma before_store_frame (restart_time : option Z) (reason : string)
    (w : World) :
  db (before_store restart_time reason w) = db w /\
  restart_pending (before_store restart_time reason w) = restart_pending w /\
  stop_manual (before_store restart_time reason w) = stop_manual w /\
  trace (before_store restart_time reason w) =
    trace w ++ [EvCmdRestart restart_time reason;
                EvCtxRespond "Restarting bot..."].
Proof.
  unfold before_store.
  destruct restart_time as [t|]; [destruct (t =? 0)|]; simpl;
    rewrite <- app_assoc; auto.
Qed.

(** X8: [cmd_restart] flags a restart only after the record is in the
    store.  Starting with the flag clear: if the flag is set afterwards,
    the acknowledgement was sent, the document of the bot holds the
    record just written and the manual-stop flag is set too; if it is
    still clear, the handler raised, the store and the manual-stop flag
    are as before and the bot was not asked to stop. *)
Theorem cmd_restart_flags_after_persist (env : Env) (ctx : Context)
    (restart_time : option Z) (reason : string) (w : World) :
  restart_pending w = false ->
  (restart_pending (snd (cmd_restart env ctx restart_time reason w)) = true ->
   stop_manual (snd (cmd_restart env ctx restart_time reason w)) = true /\
   exists resp_msg doc l,
     ctx_respond env (log_event (EvCmdRestart restart_time reason) w) ctx
       "Restarting bot..." = inr resp_msg /\
     db (snd (cmd_restart env ctx restart_time reason w)) !! uid env = Some doc /\
     dict_lookup "restart" doc = Some (VList l) /\
     In (restart_record resp_msg (stored_time env restart_time w) reason) l) /\
  (restart_pending (snd (cmd_restart env ctx restart_time reason w)) = false ->
   db (snd (cmd_restart env ctx restart_time reason w)) = db w /\
   stop_manual (snd (cmd_restart env ctx restart_time reason w)) = stop_manual w /\
   (exists e, fst (cmd_restart env ctx restart_time reason w) = Raise e) /\
   exists evs,
     trace (snd (cmd_restart env ctx restart_time reason w)) = trace w ++ evs /\
     ~ In EvBotStop evs).
Proof.
  intros Hclear.
  pose proof (cmd_restart_cases env ctx restart_time reason w) as Hcases.
  pose proof (before_store_frame restart_time reason w)
    as (Hdb & Hpending & Hmanual & Htrace).
  destruct (ctx_respond env _ ctx _) as [e | resp_msg] eqn:Hresp.
  - rewrite Hcases. simpl. split; [congruence|]. intros _.
    split; [reflexivity|]. split; [reflexivity|]. split; [now exists e|].
    eexists. split; [rewrite <- app_assoc; reflexivity|].
    simpl. intuition discriminate.
  - simpl in Hcases.
    destruct (add_to_set _ _ _ _) as [e | coll] eqn:Hadd.
    + rewrite Hcases. simpl. rewrite Hpending, Hdb, Hmanual, Htrace.
      split; [congruence|]. intros _.
      split; [reflexivity|]. split; [reflexivity|]. split; [now exists e|].
      eexists. split; [rewrite <- app_assoc; reflexivity|].
      simpl. intuition discriminate.
    + destruct Hcases as (r & w' & -> & Hcoll & Hflag & Hstop & _ & _).
      simpl. split; [|congruence]. intros _. split; [exact Hstop|].
      destruct (add_to_set_ok (uid env) "restart" _ _ _
                  ltac:(discriminate) Hadd)
        as (doc & l & Hdoc & Hfield & Hin & _).
      exists resp_msg, doc, l. rewrite Hcoll. auto.
Qed.

Lemma cmd_restart_flags_after_persist_witness :
  (restart_pending (snd (cmd_restart plain_env update_ctx (Some 1000) "manual"
                           (fresh_world ∅))) = true ->
   stop_manual (snd (cmd_restart plain_env update_ctx (Some 1000) "manual"
                       (fresh_world ∅))) = true /\
   exists resp_msg doc l,
     ctx_respond plain_env
       (log_event (EvCmdRestart (Some 1000) "manual") (fresh_world ∅))
       update_ctx "Restarting bot..." = inr resp_msg /\
     db (snd (cmd_restart plain_env update_ctx (Some 1000) "manual"
                (fresh_world ∅))) !! uid plain_env = Some doc /\
     dict_lookup "restart" doc = Some (VList l) /\
     In (restart_record resp_msg
           (stored_time plain_env (Some 1000) (fresh_world ∅)) "manual") l) /\
  (restart_pending (snd (cmd_restart plain_env update_ctx (Some 1000) "manual"
                           (fresh_world ∅))) = false ->
   db (snd (cmd_restart plain_env update_ctx (Some 1000) "manual"
              (fresh_world ∅))) = db (fresh_world ∅) /\
   stop_manual (snd (cmd_restart plain_env update_ctx (Some 1000) "manual"
                       (fresh_world ∅))) = stop_manual (fresh_world ∅) /\
   (exists e, fst (cmd_restart plain_env update_ctx (Some 1000) "manual"
                     (fresh_world ∅)) = Raise e) /\
   exists evs,
     trace (snd (cmd_restart plain_env update_ctx (Some 1000) "manual"
                   (fresh_world ∅))) = trace (fresh_world ∅) ++ evs /\
     ~ In EvBotStop evs).
Proof.
  exact (cmd_restart_flags_after_persist plain_env update_ctx (Some 1000)
           "manual" (fresh_world ∅) eq_refl).
Defined.

(** With a record at the head of the stored list, [on_start] removes
    the document and fetches no message but the one that record
    names. *)
Lemma on_start_head (env : Env) (time_us : Z) (w : World)
    (doc rec : document) (rest : list value) :
  db w !! uid env = Some doc ->
  dict_lookup "restart" doc = Some (VList (VDict rec :: rest)) ->
  exists evs,
    trace (snd (on_start env time_us w)) =
      trace w ++ EvDbFindOne (uid env) :: EvDbDeleteOne (uid env) :: evs /\
    db (snd (on_start env time_us w)) = delete (uid env) (db w) /\
    forall chat message,
      In (EvGetMessages chat message) evs ->
      chat = dict_get "status_chat_id" rec /\
      message = dict_get "status_message_id" rec.
Proof.
  intros Hdoc Hrec.
  unfold on_start, db_find_one, db_delete_one, usec, log_info, call.
  run_monad. rewrite Hdoc. unfold dict_get. rewrite Hrec. simpl.
  destruct (is_None _ || is_None _); simpl;
    [rewrite <- app_assoc; eexists; repeat split; try reflexivity;
     simpl in *; contradiction|].
  destruct (int_sub _ _) as [e | delta]; run_monad;
    [rewrite <- app_assoc; eexists; repeat split; try reflexivity;
     simpl in *; contradiction|].
  destruct (get_messages _ _ _ _) as [e | status_msg]; simpl;
    [rewrite <- !app_assoc; eexists; split; [reflexivity|];
     split; [reflexivity|]; simpl; intros chat message;
     unfold dict_get; intuition congruence|].
  destruct (bot_respond _ _ _ _) as [e | sent]; simpl;
    rewrite <- !app_assoc; eexists; (split; [reflexivity|]);
    (split; [reflexivity|]); simpl; intros chat message;
    unfold dict_get; intuition congruence.
Qed.

(** X9: first record wins.  When the stored list already holds
    records, [cmd_restart] keeps every one of them, in the order they
    were in, and puts its own record after the last of them, unless it
    is among them already, in which case the list stays as it was; the
    next [on_start] then fetches the message of the oldest record only
    and removes the whole document, the newer records with it. *)
Theorem cmd_restart_keeps_oldest_first (env : Env) (ctx : Context)
    (restart_time : option Z) (reason : string) (w : World)
    (doc rec0 : document) (rest : list value) (resp_msg : Message) :
  db w !! uid env = Some doc ->
  dict_lookup "restart" doc = Some (VList (VDict rec0 :: rest)) ->
  ctx_respond env (log_event (EvCmdRestart restart_time reason) w) ctx
    "Restarting bot..." = inr resp_msg ->
  exists doc' stored,
    db (snd (cmd_restart env ctx restart_time reason w)) !! uid env = Some doc' /\
    dict_lookup "restart" doc' = Some (VList stored) /\
    ((In (restart_record resp_msg (stored_time env restart_time w) reason)
         (VDict rec0 :: rest) /\
      stored = VDict rec0 :: rest) \/
     (~ In (restart_record resp_msg (stored_time env restart_time w) reason)
          (VDict rec0 :: rest) /\
      stored =
        VDict rec0 :: rest ++
          [restart_record resp_msg (stored_time env restart_time w) reason]))
    /\
    forall (time_us : Z) (w2 : World),
      db w2 = db (snd (cmd_restart env ctx restart_time reason w)) ->
      exists evs,
        trace (snd (on_start env time_us w2)) =
          trace w2 ++ EvDbFindOne (uid env) :: EvDbDeleteOne (uid env) :: evs /\
        db (snd (on_start env time_us w2)) !! uid env = None /\
        forall chat message,
          In (EvGetMessages chat message) evs ->
          chat = dict_get "status_chat_id" rec0 /\
          message = dict_get "status_message_id" rec0.
Proof.
  intros Hdoc Hfield Hresp.
  pose proof (cmd_restart_cases env ctx restart_time reason w) as Hcases.
  rewrite Hresp in Hcases. simpl in Hcases.
  destruct (add_to_set _ _ _ _) as [e | coll] eqn:Hadd.
  { exfalso. revert Hadd. unfold add_to_set. unfold document in *.
    rewrite Hdoc, Hfield. now destruct (existsb _ _). }
  destruct Hcases as (r & w' & -> & Hcoll & _). simpl.
  destruct (add_to_set_ok (uid env) "restart" _ _ _ ltac:(discriminate) Hadd)
    as (doc' & l & Hdoc' & Hfield' & Hin & Hold).
  exists doc', l. rewrite Hcoll.
  split; [exact Hdoc'|]. split; [exact Hfield'|].
  assert (Hstored :
            (In (restart_record resp_msg (stored_time env restart_time w)
                   reason) (VDict rec0 :: rest) /\
             l = VDict rec0 :: rest) \/
            (~ In (restart_record resp_msg (stored_time env restart_time w)
                     reason) (VDict rec0 :: rest) /\
             l = VDict rec0 :: rest ++
                   [restart_record resp_msg (stored_time env restart_time w)
                      reason])).
  { destruct (Hold doc _ Hdoc Hfield) as [(Hthere & _ & ->) | (Hnew & ->)];
      [left | right]; split; solve [assumption | reflexivity]. }
  split; [exact Hstored|].
  intros time_us w2 Hw2.
  assert (Hhead : exists newer, l = VDict rec0 :: newer).
  { destruct Hstored as [[_ ->] | [_ ->]]; eexists; reflexivity. }
  destruct Hhead as [newer ->].
  destruct (on_start_head env time_us w2 doc' rec0 newer) as (evs & Ht & Hd & Hm).
  { now rewrite Hw2. }
  { exact Hfield'. }
  exists evs. split; [exact Ht|]. split; [|exact Hm].
  rewrite Hd. apply lookup_delete_eq.
Qed.

Lemma cmd_restart_keeps_oldest_first_witness :
  exists doc' stored,
    db (snd (cmd_restart plain_env update_ctx None "manual"
               (fresh_world stored_older))) !! 777 = Some doc' /\
    dict_lookup "restart" doc' = Some (VList stored) /\
    ((In (restart_record (mkMessage 5 42 "Restarting bot...")
            (stored_time plain_env None (fresh_world stored_older)) "manual")
         [VDict older_record] /\
      stored = [VDict older_record]) \/
     (~ In (restart_record (mkMessage 5 42 "Restarting bot...")
              (stored_time plain_env None (fresh_world stored_older))
              "manual")
          [VDict older_record] /\
      stored =
        VDict older_record :: [] ++
          [restart_record (mkMessage 5 42 "Restarting bot...")
             (stored_time plain_env None (fresh_world stored_older))
             "manual"]))
    /\
    forall (time_us : Z) (w2 : World),
      db w2 = db (snd (cmd_restart plain_env update_ctx None "manual"
                         (fresh_world stored_older))) ->
      exists evs,
        trace (snd (on_start plain_env time_us w2)) =
          trace w2 ++ EvDbFindOne 777 :: EvDbDeleteOne 777 :: evs /\
        db (snd (on_start plain_env time_us w2)) !! 777 = None /\
        forall chat message,
          In (EvGetMessages chat message) evs ->
          chat = dict_get "status_chat_id" older_record /\
          message = dict_get "status_message_id" older_record.
Proof.
  apply (cmd_restart_keeps_oldest_first plain_env update_ctx None "manual"
           (fresh_world stored_older)
           [("_id"%string, VInt 777);
            ("restart"%string, VList [VDict older_record])]
           older_record [] (mkMessage 5 42 "Restarting bot...")).
  - vm_compute. reflexivity.
  - reflexivity.
  - reflexivity.
Defined.

(** The run of the witness: the older record stays in front. *)
Example restart_appends_after_stored :
  db (snd (cmd_restart plain_env update_ctx None "manual"
             (fresh_world stored_older))) !! 777 =
  Some [("_id"%string, VInt 777);
        ("restart"%string,
         VList [VDict older_record;
                restart_record (mkMessage 5 42 "Restarting bot...") 1000
                  "manual"])].
Proof. vm_compute. reflexivity. Qed.

(** X10: the stored list is a set.  When the record [cmd_restart] is
    about to write is in the stored list already, the store is left
    exactly as it was; the restart goes ahead all the same. *)
Theorem cmd_restart_same_record_twice (env : Env) (ctx : Context)
    (restart_time : option Z) (reason : string) (w : World)
    (doc : document) (l : list value) (resp_msg : Message) :
  db w !! uid env = Some doc ->
  dict_lookup "restart" doc = Some (VList l) ->
  ctx_respond env (log_event (EvCmdRestart restart_time reason) w) ctx
    "Restarting bot..." = inr resp_msg ->
  In (restart_record resp_msg (stored_time env restart_time w) reason) l ->
  db (snd (cmd_restart env ctx restart_time reason w)) = db w /\
  restart_pending (snd (cmd_restart env ctx restart_time reason w)) = true.
Proof.
  intros Hdoc Hfield Hresp Hin.
  pose proof (cmd_restart_cases env ctx restart_time reason w) as Hcases.
  rewrite Hresp in Hcases. simpl in Hcases.
  destruct (add_to_set _ _ _ _) as [e | coll] eqn:Hadd.
  { exfalso. revert Hadd. unfold add_to_set. unfold document in *.
    rewrite Hdoc, Hfield. now destruct (existsb _ _). }
  destruct Hcases as (r & w' & -> & Hcoll & Hflag & _). simpl.
  split; [|exact Hflag]. rewrite Hcoll.
  destruct (add_to_set_ok (uid env) "restart" _ _ _ ltac:(discriminate) Hadd)
    as (doc' & l' & _ & _ & _ & Hold).
  destruct (Hold doc l Hdoc Hfield) as [(_ & -> & _) | (Hnot & _)];
    [reflexivity | contradiction].
Qed.

Lemma cmd_restart_same_record_twice_witness :
  db (snd (cmd_restart plain_env update_ctx (Some 1000) "update"
             (fresh_world stored_update))) = db (fresh_world stored_update) /\
  restart_pending (snd (cmd_restart plain_env update_ctx (Some 1000) "update"
                          (fresh_world stored_update))) = true.
Proof.
  apply (cmd_restart_same_record_twice plain_env update_ctx (Some 1000)
           "update" (fresh_world stored_update)
           [("_id"%string, VInt 777); ("restart"%string, VList [update_record])]
           [update_record] (mkMessage 5 42 "Restarting bot...")).
  - vm_compute. reflexivity.
  - reflexivity.
  - reflexivity.
  - left. reflexivity.
Defined.

(** [on_start] on a stored list headed by a record of [cmd_restart],
    when the message can be fetched. *)
Lemma on_start_reports (env : Env) (time_us : Z) (w : World) (doc : document)
    (resp_msg status_msg : Message) (time : Z) (reason : string)
    (rest : list value) :
  db w !! uid env = Some doc ->
  dict_lookup "restart" doc =
    Some (VList (restart_record resp_msg time reason :: rest)) ->
  (forall w', get_messages env w' (VInt (chat_id resp_msg))
                (VInt (message_id resp_msg)) = inr status_msg) ->
  trace (snd (on_start env time_us w)) =
    trace w ++
    [EvDbFindOne (uid env); EvDbDeleteOne (uid env);
     EvLogInfo ("Bot " +:+ "" +:+ "restarted in " +:+
                format_duration_us env (usec_at env (clock_reads w) - time));
     EvGetMessages (VInt (chat_id resp_msg)) (VInt (message_id resp_msg));
     EvBotRespond status_msg
       ("Bot " +:+ "" +:+ "restarted in " +:+
        format_duration_us env (usec_at env (clock_reads w) - time) +:+ ".")]
  /\ db (snd (on_start env time_us w)) = delete (uid env) (db w).
Proof.
  intros Hdoc Hfield Hfetch.
  unfold on_start, db_find_one, db_delete_one, usec, log_info, call.
  run_monad. unfold document in *. rewrite Hdoc. unfold dict_get.
  rewrite Hfield. simpl. rewrite Hfetch. simpl.
  destruct (bot_respond _ _ _ _); simpl; now rewrite <- !app_assoc.
Qed.

(** X11: a restart, from command to resumption.  After [cmd_restart] on
    a store without a document for the bot, the [on_start] of the
    process that takes over fetches exactly the acknowledgement
    "Restarting bot..." was answered with, reports the time elapsed
    since the stored time, and leaves no document behind.  The stored
    time is [restart_time] when that is given and not 0, and the clock
    reading taken by [cmd_restart] otherwise. *)
Theorem restart_resume_round_trip (env : Env) (ctx : Context)
    (restart_time : option Z) (reason : string) (w : World)
    (resp_msg status_msg : Message) :
  db w !! uid env = None ->
  ctx_respond env (log_event (EvCmdRestart restart_time reason) w) ctx
    "Restarting bot..." = inr resp_msg ->
  (forall w', get_messages env w' (VInt (chat_id resp_msg))
                (VInt (message_id resp_msg)) = inr status_msg) ->
  (forall (time_us : Z) (w2 : World),
      db w2 = db (snd (cmd_restart env ctx restart_time reason w)) ->
      trace (snd (on_start env time_us w2)) =
        trace w2 ++
        [EvDbFindOne (uid env); EvDbDeleteOne (uid env);
         EvLogInfo ("Bot " +:+ "" +:+ "restarted in " +:+
                    format_duration_us env
                      (usec_at env (clock_reads w2)
                       - stored_time env restart_time w));
         EvGetMessages (VInt (chat_id resp_msg)) (VInt (message_id resp_msg));
         EvBotRespond status_msg
           ("Bot " +:+ "" +:+ "restarted in " +:+
            format_duration_us env
              (usec_at env (clock_reads w2) - stored_time env restart_time w)
            +:+ ".")]
      /\ db (snd (on_start env time_us w2)) !! uid env = None) /\
  (forall t, restart_time = Some t -> t <> 0 ->
             stored_time env restart_time w = t) /\
  (restart_time = None \/ restart_time = Some 0 ->
   stored_time env restart_time w = usec_at env (clock_reads w)).
Proof.
  intros Hnone Hresp Hfetch. split; [|split].
  - intros time_us w2 Hw2.
    pose proof (cmd_restart_cases env ctx restart_time reason w) as Hcases.
    rewrite Hresp in Hcases. simpl in Hcases.
    unfold add_to_set in Hcases. rewrite Hnone in Hcases.
    destruct Hcases as (r & w' & Hrun & Hcoll & _).
    rewrite Hrun in Hw2. simpl in Hw2. rewrite Hcoll in Hw2.
    destruct (on_start_reports env time_us w2
                [("_id"%string, VInt (uid env));
                 ("restart"%string,
                  VList [restart_record resp_msg
                           (stored_time env restart_time w) reason])]
                resp_msg status_msg (stored_time env restart_time w) reason [])
      as [Htrace Hdb].
    + rewrite Hw2. apply lookup_insert_eq.
    + reflexivity.
    + exact Hfetch.
    + split; [exact Htrace|]. rewrite Hdb. apply lookup_delete_eq.
  - intros t -> Ht. unfold stored_time.
    destruct (Z.eqb_spec t 0); [contradiction | reflexivity].
  - intros [-> | ->]; reflexivity.
Qed.

Lemma restart_resume_round_trip_witness :
  (forall (time_us : Z) (w2 : World),
      db w2 = db (snd (cmd_restart plain_env update_ctx (Some 0) "manual"
                         (mkWorld ∅ false false 7 []))) ->
      trace (snd (on_start plain_env time_us w2)) =
        trace w2 ++
        [EvDbFindOne 777; EvDbDeleteOne 777;
         EvLogInfo ("Bot " +:+ "" +:+ "restarted in " +:+
                    format_duration_us plain_env
                      (usec_at plain_env (clock_reads w2) - 1070));
         EvGetMessages (VInt 5) (VInt 42);
         EvBotRespond sample_message
           ("Bot " +:+ "" +:+ "restarted in " +:+
            format_duration_us plain_env
              (usec_at plain_env (clock_reads w2) - 1070) +:+ ".")]
      /\ db (snd (on_start plain_env time_us w2)) !! 777 = None) /\
  (forall t, Some 0 = Some t -> t <> 0 ->
             stored_time plain_env (Some 0) (mkWorld ∅ false false 7 []) = t) /\
  (Some 0 = None \/ Some 0 = Some 0 ->
   stored_time plain_env (Some 0) (mkWorld ∅ false false 7 []) = 1070).
Proof.
  exact (restart_resume_round_trip plain_env update_ctx (Some 0) "manual"
           (mkWorld ∅ false false 7 []) (mkMessage 5 42 "Restarting bot...")
           sample_message eq_refl eq_refl (fun _ => eq_refl)).
Defined.

(** X12: a record without a chat or a message to edit.  When the first
    stored record lacks "status_chat_id" or "status_message_id" (or
    holds [None] there), [on_start] removes the document and returns:
    nothing is fetched, edited or logged, and the clock is not read. *)
Theorem on_start_bails_out (env : Env) (time_us : Z) (w : World)
    (doc rec : document) (rest : list value) :
  db w !! uid env = Some doc ->
  dict_lookup "restart" doc = Some (VList (VDict rec :: rest)) ->
  dict_get "status_chat_id" rec = VNone \/
  dict_get "status_message_id" rec = VNone ->
  on_start env time_us w =
    (Ok tt,
     set_db (delete (uid env))
       (log_event (EvDbDeleteOne (uid env))
          (log_event (EvDbFindOne (uid env)) w))).
Proof.
  intros Hdoc Hrec Hmissing.
  unfold on_start, db_find_one, db_delete_one. run_monad.
  rewrite Hdoc. unfold dict_get at 1. rewrite Hrec. simpl.
  destruct Hmissing as [-> | ->]; simpl; [reflexivity|].
  now rewrite orb_true_r.
Qed.

Lemma on_start_bails_out_witness :
  on_start plain_env 0
    (fresh_world {[ 777 := [("_id"%string, VInt 777);
                            ("restart"%string,
                             VList [VDict record_without_message])] ]}) =
  (Ok tt,
   set_db (delete 777)
     (log_event (EvDbDeleteOne 777)
        (log_event (EvDbFindOne 777)
           (fresh_world {[ 777 := [("_id"%string, VInt 777);
                                   ("restart"%string,
                                    VList [VDict record_without_message])] ]})))).
Proof.
  apply (on_start_bails_out plain_env 0 _
           [("_id"%string, VInt 777);
            ("restart"%string, VList [VDict record_without_message])]
           record_without_message []).
  - vm_compute. reflexivity.
  - reflexivity.
  - right. reflexivity.
Defined.

(** X13: a record without a time to subtract.  When the first stored
    record names a chat and a message but its "time" is missing or null,
    a string, an array or a sub-document, [on_start] raises Python's
    [TypeError] for the subtraction, after the document has been removed
    and the clock read, and before anything is fetched or logged. *)
Theorem on_start_without_time (env : Env) (time_us : Z) (w : World)
    (doc rec : document) (rest : list value) :
  db w !! uid env = Some doc ->
  dict_lookup "restart" doc = Some (VList (VDict rec :: rest)) ->
  dict_get "status_chat_id" rec <> VNone ->
  dict_get "status_message_id" rec <> VNone ->
  (dict_get "time" rec = VNone \/
   (exists s, dict_get "time" rec = VStr s) \/
   (exists l, dict_get "time" rec = VList l) \/
   (exists d, dict_get "time" rec = VDict d)) ->
  on_start env time_us w =
    (Raise (TypeError ("unsupported operand type(s) for -: 'int' and '" +:+
                       type_name (dict_get "time" rec) +:+ "'")),
     tick (set_db (delete (uid env))
             (log_event (EvDbDeleteOne (uid env))
                (log_event (EvDbFindOne (uid env)) w)))).
Proof.
  intros Hdoc Hrec Hchat Hmessage Htime.
  assert (Hget : dict_get "restart" doc = VList (VDict rec :: rest))
    by (unfold dict_get; now rewrite Hrec).
  unfold on_start, db_find_one, db_delete_one, usec. run_monad.
  rewrite Hdoc, Hget. simpl.
  destruct (dict_get "status_chat_id" rec) eqn:Ec; try contradiction;
    destruct (dict_get "status_message_id" rec) eqn:Em; try contradiction;
    simpl;
    destruct Htime as [-> | [[ts ->] | [[tl ->] | [td ->]]]]; reflexivity.
Qed.

Lemma on_start_without_time_witness :
  on_start plain_env 0
    (fresh_world {[ 777 := [("_id"%string, VInt 777);
                            ("restart"%string,
                             VList [VDict record_without_time])] ]}) =
  (Raise (TypeError "unsupported operand type(s) for -: 'int' and 'NoneType'"),
   tick (set_db (delete 777)
           (log_event (EvDbDeleteOne 777)
              (log_event (EvDbFindOne 777)
                 (fresh_world {[ 777 := [("_id"%string, VInt 777);
                                         ("restart"%string,
                                          VList [VDict record_without_time])] ]}))))).
Proof.
  exact (on_start_without_time plain_env 0
           (fresh_world {[ 777 := [("_id"%string, VInt 777);
                                   ("restart"%string,
                                    VList [VDict record_without_time])] ]})
           [("_id"%string, VInt 777);
            ("restart"%string, VList [VDict record_without_time])]
           record_without_time [] eq_refl eq_refl
           ltac:(discriminate) ltac:(discriminate) (or_introl eq_refl)).
Defined.

(** A time stored as [True] subtracts as 1: the report goes out. *)
Example int_sub_of_bool :
  int_sub 1000 (VBool true) = inr 999 /\
  int_sub 1000 (VBool false) = inr 1000 /\
  int_sub 1000 (VStr "soon") =
    inl (TypeError "unsupported operand type(s) for -: 'int' and 'str'").
Proof. repeat split. Qed.

(** X14: the status message cannot be fetched.  [on_start] does not
    catch the exception of [client.get_messages]: it leaves the handler
    as it is, nothing is sent, and the document is gone already. *)
Theorem on_start_fetch_fails (env : Env) (time_us : Z) (w : World)
    (doc : document) (resp_msg : Message) (time : Z) (reason : string)
    (rest : list value) (e : Exn) :
  db w !! uid env = Some doc ->
  dict_lookup "restart" doc =
    Some (VList (restart_record resp_msg time reason :: rest)) ->
  (forall w', get_messages env w' (VInt (chat_id resp_msg))
                (VInt (message_id resp_msg)) = inl e) ->
  fst (on_start env time_us w) = Raise e /\
  trace (snd (on_start env time_us w)) =
    trace w ++
    [EvDbFindOne (uid env); EvDbDeleteOne (uid env);
     EvLogInfo ("Bot " +:+ "" +:+ "restarted in " +:+
                format_duration_us env (usec_at env (clock_reads w) - time));
     EvGetMessages (VInt (chat_id resp_msg)) (VInt (message_id resp_msg))] /\
  db (snd (on_start env time_us w)) = delete (uid env) (db w).
Proof.
  intros Hdoc Hfield Hfetch.
  unfold on_start, db_find_one, db_delete_one, usec, log_info, call.
  run_monad. unfold document in *. rewrite Hdoc. unfold dict_get.
  rewrite Hfield. simpl. rewrite Hfetch. simpl.
  now rewrite <- !app_assoc.
Qed.

Lemma on_start_fetch_fails_witness :
  fst (on_start (with_get_messages plain_env
                   (fun _ _ _ => inl (exn_named "MessageIdInvalid")))
         1500 (resumed_world stored_update)) =
    Raise (exn_named "MessageIdInvalid") /\
  trace (snd (on_start (with_get_messages plain_env
                          (fun _ _ _ => inl (exn_named "MessageIdInvalid")))
                1500 (resumed_world stored_update))) =
    [] ++
    [EvDbFindOne 777; EvDbDeleteOne 777;
     EvLogInfo ("Bot " +:+ "" +:+ "restarted in " +:+ "500 us");
     EvGetMessages (VInt 5) (VInt 42)] /\
  db (snd (on_start (with_get_messages plain_env
                       (fun _ _ _ => inl (exn_named "MessageIdInvalid")))
             1500 (resumed_world stored_update))) =
    delete 777 stored_update.
Proof.
  apply (on_start_fetch_fails
           (with_get_messages plain_env
              (fun _ _ _ => inl (exn_named "MessageIdInvalid")))
           1500 (resumed_world stored_update)
           [("_id"%string, VInt 777); ("restart"%string, VList [update_record])]
           sample_message 1000 "update" [] (exn_named "MessageIdInvalid")).
  - vm_compute. reflexivity.
  - reflexivity.
  - intros w'. reflexivity.
Defined.

(** ** Stopping and restarting *)

(** X15: a manual stop never restarts.  In a module that was just loaded
    [cmd_stop] sends at most its two answers and the stop request, in
    that order, does not touch the store and leaves the restart flag
    clear, so that [on_stopped] afterwards returns without replacing the
    process; the manual-stop flag is set as soon as the first answer
    went out. *)
Theorem cmd_stop_never_restarts (env : Env) (ctx : Context) (w : World) :
  db (snd (cmd_stop env ctx (snd (on_load w)))) = db w /\
  restart_pending (snd (cmd_stop env ctx (snd (on_load w)))) = false /\
  on_stopped env (snd (cmd_stop env ctx (snd (on_load w)))) =
    (Ok tt, snd (cmd_stop env ctx (snd (on_load w)))) /\
  (exists evs,
      trace (snd (cmd_stop env ctx (snd (on_load w)))) = trace w ++ evs /\
      (evs = [EvCtxRespond "Stopping bot..."] \/
       evs = [EvCtxRespond "Stopping bot..."; EvCtxRespond "Stopped"] \/
       evs = [EvCtxRespond "Stopping bot..."; EvCtxRespond "Stopped";
              EvBotStop])) /\
  (forall m,
      ctx_respond env (snd (on_load w)) ctx "Stopping bot..." = inr m ->
      stop_manual (snd (cmd_stop env ctx (snd (on_load w)))) = true).
Proof.
  assert (Hstopped : forall w1, restart_pending w1 = false ->
                                on_stopped env w1 = (Ok tt, w1)).
  { intros w1 H. unfold on_stopped. run_monad. now rewrite H. }
  unfold cmd_stop, on_load, call, call_. run_monad.
  destruct (ctx_respond env _ ctx "Stopping bot...") as [e | m1]; simpl.
  { repeat split; try (apply Hstopped; reflexivity); try discriminate.
    eexists. split; [reflexivity|]. auto. }
  destruct (ctx_respond env _ ctx "Stopped") as [e | m2]; simpl.
  { repeat split; try (apply Hstopped; reflexivity).
    eexists. split; [rewrite <- app_assoc; reflexivity|]. auto. }
  destruct (bot_stop env _) as [e|]; simpl;
    (repeat split; try (apply Hstopped; reflexivity);
     eexists; split; [rewrite <- !app_assoc; reflexivity|]; auto).
Qed.

(** X16: a restart does restart.  Once the acknowledgement is out and
    the store has taken the record, the restart flag is set whatever the
    stop request does, and [on_stopped] run afterwards replaces the
    process with [sys.executable -m caligo] if [os.execv] goes
    through. *)
Theorem cmd_restart_then_stopped (env : Env) (ctx : Context)
    (restart_time : option Z) (reason : string) (w : World)
    (resp_msg : Message) (coll : gmap Z document) :
  ctx_respond env (log_event (EvCmdRestart restart_time reason) w) ctx
    "Restarting bot..." = inr resp_msg ->
  add_to_set (uid env) "restart"
    (restart_record resp_msg (stored_time env restart_time w) reason) (db w)
    = inr coll ->
  (forall w' path argv, os_execv env w' path argv = None) ->
  restart_pending (snd (cmd_restart env ctx restart_time reason w)) = true /\
  db (snd (cmd_restart env ctx restart_time reason w)) = coll /\
  fst (on_stopped env (snd (cmd_restart env ctx restart_time reason w))) =
    Replaced (sys_executable env)
      [sys_executable env; "-m"%string; "caligo"%string].
Proof.
  intros Hresp Hadd Hexec.
  pose proof (cmd_restart_cases env ctx restart_time reason w) as Hcases.
  rewrite Hresp in Hcases. simpl in Hcases. rewrite Hadd in Hcases.
  destruct Hcases as (r & w' & -> & Hcoll & Hflag & _). simpl.
  split; [exact Hflag|]. split; [exact Hcoll|].
  destruct (on_stopped_spec env w') as [_ Hpending].
  destruct (Hpending Hflag) as (w'' & _ & ->). simpl.
  now rewrite Hexec.
Qed.

Lemma cmd_restart_then_stopped_witness :
  restart_pending (snd (cmd_restart plain_env update_ctx (Some 1000) "update"
                          (fresh_world ∅))) = true /\
  db (snd (cmd_restart plain_env update_ctx (Some 1000) "update"
             (fresh_world ∅))) = stored_update /\
  fst (on_stopped plain_env
         (snd (cmd_restart plain_env update_ctx (Some 1000) "update"
                 (fresh_world ∅)))) =
    Replaced "/usr/bin/python3" ["/usr/bin/python3"; "-m"; "caligo"]%string.
Proof.
  exact (cmd_restart_then_stopped plain_env update_ctx (Some 1000) "update"
           (fresh_world ∅) (mkMessage 5 42 "Restarting bot...") stored_update
           eq_refl eq_refl (fun _ _ _ => eq_refl)).
Defined.

(** ** Self-update, further *)








(** X18: a failed reinstall.  When git, the repository and the remote
    are there, both progress messages are sent, the pull goes through,
    the pulled diff touches "poetry.lock", a virtualenv path is known
    and pip exits with a code other than 0, [cmd_update] replies with
    the error message quoting pip's output and stops right after the
    pip run: its trace is the two messages, the pull and the pip run,
    with no call of the restart coordinator. *)
Theorem cmd_update_reinstall_fails (env : Env) (ctx : Context) (w : World)
    (repo : Repo) (remote : string) (m m2 : Message) (out err : string)
    (ret : Z) :
  have_git env = true ->
  get_repo env = Some repo ->
  resolved_remote env ctx remote ->
  ctx_respond env (tick w) ctx (pull_message remote) = inr m ->
  remote_pull env remote = None ->
  touches_lock_file (commit_diff env) = true ->
  truthy (get_venv_path env) = true ->
  ctx_respond env (after_pull remote w) ctx "Updating dependencies..."
    = inr m2 ->
  run_command env (pip_install env repo) = inr (out, err, ret) ->
  ret <> 0 ->
  cmd_update env ctx w =
    (Ok (Some (dependency_error_reply out)),
     after_reinstall env repo remote w) /\
  trace (snd (cmd_update env ctx w)) =
    trace w ++ [EvCtxRespond (pull_message remote); EvPull remote;
                EvCtxRespond "Updating dependencies...";
                EvRunCommand (pip_install env repo)] /\
  (forall evs,
      trace (snd (cmd_update env ctx w)) = trace w ++ evs ->
      restart_calls evs = 0%nat).
Proof.
  intros Hgit Hrepo Hremote Hrespond Hpull Hlock Hvenv Hrespond2 Hrun Hret.
  assert (Hrun_to_end :
            cmd_update env ctx w =
              (Ok (Some (dependency_error_reply out)),
               after_reinstall env repo remote w)).
  { rewrite (cmd_update_resolved env ctx w repo remote Hgit Hrepo Hremote),
      (pull_and_restart_after_pull env ctx repo remote w m Hrespond Hpull).
    rewrite Hlock, Hvenv, Hrespond2, Hrun. cbn [fst snd].
    destruct (commit_diff env); [discriminate|].
    destruct (Z.eqb_spec ret 0); [contradiction | reflexivity]. }
  assert (Htrace :
            trace (snd (cmd_update env ctx w)) =
              trace w ++ [EvCtxRespond (pull_message remote); EvPull remote;
                          EvCtxRespond "Updating dependencies...";
                          EvRunCommand (pip_install env repo)]).
  { rewrite Hrun_to_end. simpl. now rewrite <- !app_assoc. }
  split; [exact Hrun_to_end|]. split; [exact Htrace|].
  intros evs Hevs. rewrite Htrace in Hevs.
  apply app_inv_head in Hevs. now subst evs.
Qed.

Lemma cmd_update_reinstall_fails_witness :
  cmd_update env_pip_fails update_ctx (fresh_world ∅) =
    (Ok (Some (dependency_error_reply "No matching distribution")),
     after_reinstall env_pip_fails (mkRepo "master" "/srv/caligo") "origin"
       (fresh_world ∅)) /\
  trace (snd (cmd_update env_pip_fails update_ctx (fresh_world ∅))) =
    trace (fresh_world ∅) ++
      [EvCtxRespond (pull_message "origin"); EvPull "origin";
       EvCtxRespond "Updating dependencies...";
       EvRunCommand
         (pip_install env_pip_fails (mkRepo "master" "/srv/caligo"))] /\
  (forall evs,
      trace (snd (cmd_update env_pip_fails update_ctx (fresh_world ∅))) =
        trace (fresh_world ∅) ++ evs ->
      restart_calls evs = 0%nat).
Proof.
  exact (cmd_update_reinstall_fails env_pip_fails update_ctx (fresh_world ∅)
           (mkRepo "master" "/srv/caligo") "origin"%string _ _
           "No matching distribution"%string ""%string 1
           eq_refl eq_refl (or_intror (conj eq_refl eq_refl)) eq_refl eq_refl
           eq_refl eq_refl eq_refl eq_refl ltac:(discriminate)).
Defined.

(** The run of the witness: pip is run, nothing is restarted. *)
Example update_reinstall_fails_run :
  cmd_update env_pip_fails update_ctx (fresh_world ∅) =
  (Ok (Some (dependency_error_reply "No matching distribution")),
   mkWorld ∅ false false 1
     [EvCtxRespond "Pulling changes from `origin`..."; EvPull "origin";
      EvCtxRespond "Updating dependencies...";
      EvRunCommand ["/srv/venv/bin/pip"; "install"; "/srv/caligo"]%string]).
Proof. vm_compute. reflexivity. Qed.

(** ** [silent], further *)

Module SilentMore.
Import Silent.

(** A body that leaves the files alone. *)
Definition quiet_body : M PyState unit := fun s => (Ok tt, s).

(** [silent] around a body that exits, in one step. *)
Lemma silent_exit {A} (fails : PyState -> option Exn) (body : M PyState A)
    (s : PyState) :
  fails s = None ->
  silent fails body s =
    match body (inside s) with
    | (Ok a, s3) =>
        (Ok a, mkPyState (sys_stdout s) (open_files s3 ∖ {[next_handle s]})
                 (next_handle s3))
    | (Raise e, s3) =>
        (Raise e, mkPyState (sys_stdout s) (open_files s3 ∖ {[next_handle s]})
                    (next_handle s3))
    | (Replaced p a, s3) => (Replaced p a, s3)
    end.
Proof.
  intros Hopen.
  unfold silent, with_open_devnull, open_devnull, close, try_finally,
    set_stdout.
  run_monad. rewrite Hopen. simpl. fold (inside s).
  destruct (body (inside s)) as [[a | e | p a] s3]; reflexivity.
Qed.

Lemma remove_added (h : nat) (files : gset nat) :
  h ∉ files -> ({[h]} ∪ files) ∖ {[h]} = files.
Proof.
  intros Hfresh. apply set_eq. intros x.
  rewrite elem_of_difference, elem_of_union, elem_of_singleton.
  split.
  - intros [[-> | Hx] Hne]; [contradiction | assumption].
  - intros Hx. split; [now right|]. intros ->. contradiction.
Qed.

(** X19: [silent] closes its own file and no other.  When the body
    exits, the files open afterwards are those the body left open, less
    the one opened on the null device; with a fresh handle and a body
    that opens and closes nothing, they are exactly the files that were
    open before. *)
Theorem silent_closes_only_its_file {A} (fails : PyState -> option Exn)
    (body : M PyState A) (s : PyState) :
  fails s = None ->
  (forall p a, fst (body (inside s)) <> Replaced p a) ->
  open_files (snd (silent fails body s)) =
    open_files (snd (body (inside s))) ∖ {[next_handle s]} /\
  (next_handle s ∉ open_files s ->
   open_files (snd (body (inside s))) = open_files (inside s) ->
   open_files (snd (silent fails body s)) = open_files s).
Proof.
  intros Hopen Hexit. rewrite (silent_exit fails body s Hopen).
  destruct (body (inside s)) as [[a | e | p a] s3] eqn:Hbody; simpl in *.
  - split; [reflexivity|]. intros Hfresh ->. now apply remove_added.
  - split; [reflexivity|]. intros Hfresh ->. now apply remove_added.
  - now destruct (Hexit p a).
Qed.

Lemma silent_closes_only_its_file_witness :
  open_files (snd (silent (fun _ => None) quiet_body console_state)) =
    open_files (snd (quiet_body (inside console_state))) ∖ {[3%nat]} /\
  (3%nat ∉ open_files console_state ->
   open_files (snd (quiet_body (inside console_state)))
     = open_files (inside console_state) ->
   open_files (snd (silent (fun _ => None) quiet_body console_state))
     = open_files console_state).
Proof.
  apply (silent_closes_only_its_file (fun _ => None) quiet_body console_state).
  - reflexivity.
  - intros p a. simpl. discriminate.
Defined.

(** X20: the null device cannot be opened.  [silent] raises the
    exception of [open], the body does not run, and [sys.stdout] and the
    open files are what they were. *)
Theorem silent_cannot_open {A} (fails : PyState -> option Exn)
    (body : M PyState A) (s : PyState) (e : Exn) :
  fails s = Some e ->
  (silent fails body s = (Raise e, s)) /\
  sys_stdout (snd (silent fails body s)) = sys_stdout s /\
  open_files (snd (silent fails body s)) = open_files s.
Proof.
  intros H.
  assert (Hrun : silent fails body s = (Raise e, s)).
  { unfold silent, with_open_devnull, open_devnull. run_monad. now rewrite H. }
  rewrite Hrun. auto.
Qed.

Lemma silent_cannot_open_witness :
  (silent (fun _ => Some (mkExn "OSError" "too many open files" true []))
     unruly_body console_state =
     (Raise (mkExn "OSError" "too many open files" true []), console_state)) /\
  sys_stdout (snd (silent
                     (fun _ => Some (mkExn "OSError" "too many open files"
                                       true []))
                     unruly_body console_state)) = 1%nat /\
  open_files (snd (silent
                     (fun _ => Some (mkExn "OSError" "too many open files"
                                       true []))
                     unruly_body console_state)) = open_files console_state.
Proof.
  exact (silent_cannot_open
           (fun _ => Some (mkExn "OSError" "too many open files" true []))
           unruly_body console_state _ eq_refl).
Defined.

(** X21: nested contexts.  With [silent] inside [silent], the body runs
    with [sys.stdout] bound to the inner null device; when both contexts
    have exited, [sys.stdout] is what it was before the outer one and
    neither null device is open. *)
Theorem silent_nested {A} (fails : PyState -> option Exn)
    (body : M PyState A) (s : PyState) :
  fails s = None ->
  fails (inside s) = None ->
  (forall p a, fst (body (inside (inside s))) <> Replaced p a) ->
  sys_stdout (inside (inside s)) = S (next_handle s) /\
  fst (silent fails (silent fails body) s) = fst (body (inside (inside s))) /\
  sys_stdout (snd (silent fails (silent fails body) s)) = sys_stdout s /\
  (next_handle s ∉ open_files (snd (silent fails (silent fails body) s))) /\
  (S (next_handle s) ∉ open_files (snd (silent fails (silent fails body) s))).
Proof.
  intros Houter Hinner Hexit. split; [reflexivity|].
  rewrite (silent_exit fails (silent fails body) s Houter).
  rewrite (silent_exit fails body (inside s) Hinner).
  destruct (body (inside (inside s))) as [[a | e | p a] s3] eqn:Hbody;
    simpl in *.
  - split; [reflexivity|]. split; [reflexivity|].
    split; intros [Hin Hne]%elem_of_difference.
    + apply Hne. now apply elem_of_singleton.
    + apply elem_of_difference in Hin as [_ Hne']. apply Hne'.
      now apply elem_of_singleton.
  - split; [reflexivity|]. split; [reflexivity|].
    split; intros [Hin Hne]%elem_of_difference.
    + apply Hne. now apply elem_of_singleton.
    + apply elem_of_difference in Hin as [_ Hne']. apply Hne'.
      now apply elem_of_singleton.
  - now destruct (Hexit p a).
Qed.

Lemma silent_nested_witness :
  sys_stdout (inside (inside console_state)) = 4%nat /\
  fst (silent (fun _ => None) (silent (fun _ => None) unruly_body)
         console_state) = fst (unruly_body (inside (inside console_state))) /\
  sys_stdout (snd (silent (fun _ => None) (silent (fun _ => None) unruly_body)
                     console_state)) = 1%nat /\
  (3%nat ∉ open_files (snd (silent (fun _ => None)
                              (silent (fun _ => None) unruly_body)
                              console_state))) /\
  (4%nat ∉ open_files (snd (silent (fun _ => None)
                              (silent (fun _ => None) unruly_body)
                              console_state))).
Proof.
  apply (silent_nested (fun _ => None) unruly_body console_state).
  - reflexivity.
  - reflexivity.
  - intros p a. simpl. discriminate.
Defined.

End SilentMore.
